(** * Gesture arbitration of caress-your-music

    A shallow embedding of the gesture controller in [main.py]
    ([GestureSpotifyController]) and of the parts of [hand_tracker.py]
    ([HandTracker]) it drives, together with the properties of the
    arbitration state machine.

    Conventions of the embedding.
    - Wall-clock readings ([time.time()]) are exact integers in
      milliseconds, so the source constants 0.3, 0.6, 0.8, 1.0, 1.5, 2.0 and
      3.0 seconds read 300, 600, 800, 1000, 1500, 2000 and 3000.  Every call
      site of [time.time()] has a reading of its own: the source samples
      the clock several times while it processes one frame.
    - Pixel coordinates are Python integers ([int(lm.x * w)]), here [Z].
      The conversion from the estimator's normalized floats is not part
      of the model: a frame carries the pixel landmarks of each hand.
    - The controller object, its tracker and the two loop variables of
      [run] that survive an iteration form one record, [State].
    - A method is a function in the monad [M]: it reads and writes the
      state, may raise a Python exception, and appends to the list of
      calls made on the playback backend. *)

From Stdlib Require Import ZArith List Bool Lia.
Import ListNotations.
Open Scope Z_scope.

(** ** Data *)

(** A landmark in pixel space, and the landmarks of one hand
    (index 0 is the wrist, 4 the thumb tip, 8 the index tip). *)
Definition Point : Type := Z * Z.
Definition Landmarks : Type := list Point.

(** The gesture labels of [run]: ["swipe_left"], ["swipe_right"], ["pinch"]. *)
Inductive Gesture : Type := swipe_left | swipe_right | pinch.

(** [last_swipe_direction]: ["left"] or ["right"]. *)
Inductive SwipeDirection : Type := dir_left | dir_right.

(** [last_volume_gesture]: ["up"] or ["down"]. *)
Inductive VolumeGesture : Type := up | down.

(** The dictionary of [SpotifyController.get_current_track_info]; the
    two display strings (track name and artist) are left out. *)
Record TrackInfo : Type := mkTrackInfo {
  duration_ms : Z;
  progress_ms : Z;
  is_playing : bool
}.

(** The methods of [SpotifyController] that the controller calls.  All but
    [get_current_track_info] are playback commands. *)
Inductive Call : Type :=
| previous_track
| next_track
| play_pause
| adjust_volume (delta : Z)
| seek_position (position_ms : Z)
| get_current_track_info.

Definition is_command (c : Call) : bool :=
  match c with
  | get_current_track_info => false
  | _ => true
  end.

Definition commands (calls : list Call) : list Call := filter is_command calls.

Definition is_seek (c : Call) : bool :=
  match c with
  | seek_position _ => true
  | _ => false
  end.

Inductive Exception : Type := AttributeError | IndexError.

Inductive Result (A : Type) : Type :=
| Ok (a : A)
| Raise (e : Exception).
Arguments Ok {A} a.
Arguments Raise {A} e.

(** ** State *)

Record State : Type := mkState {
  (* GestureSpotifyController.__init__ *)
  spotify_enabled : bool;          (* [self.spotify] exists exactly when set *)
  scrubbing_active : bool;
  scrub_start_x : option Z;
  scrub_start_progress : option Z;
  last_scrub_time : Z;
  scrub_end_time : Z;
  last_volume_gesture : option VolumeGesture;
  last_volume_time : Z;
  volume_gesture_armed : bool;
  last_play_pause_time : Z;
  play_pause_armed : bool;
  last_swipe_time : Z;
  last_swipe_direction : option SwipeDirection;
  stable_finger_count : option Z;
  finger_count_start_time : Z;
  hand_first_seen_time : Z;
  hand_was_visible : bool;
  cached_track_info : option TrackInfo;
  last_track_fetch_time : Z;
  (* HandTracker.__init__ *)
  position_history : list Landmarks;   (* deque(maxlen=10) *)
  last_gesture_time : Z;
  (* locals of run that live across iterations *)
  frame_count : Z;
  last_hand_landmarks : option (list Landmarks)
}.

(** The state after [GestureSpotifyController.__init__] and the
    initialisation of [run], with or without a backend. *)
Definition init (enabled : bool) : State :=
  mkState enabled false None None 0 0 None 0 true 0 true 0 None None 0 0
    false None 0 [] 0 0 None.

(** Field updates. *)
Definition set_scrubbing_active (v : bool) (s : State) : State :=
  mkState (spotify_enabled s) v (scrub_start_x s) (scrub_start_progress s)
    (last_scrub_time s) (scrub_end_time s) (last_volume_gesture s)
    (last_volume_time s) (volume_gesture_armed s) (last_play_pause_time s)
    (play_pause_armed s) (last_swipe_time s) (last_swipe_direction s)
    (stable_finger_count s) (finger_count_start_time s)
    (hand_first_seen_time s) (hand_was_visible s) (cached_track_info s)
    (last_track_fetch_time s) (position_history s) (last_gesture_time s)
    (frame_count s) (last_hand_landmarks s).
Definition set_scrub_start_x (v : option Z) (s : State) : State :=
  mkState (spotify_enabled s) (scrubbing_active s) v (scrub_start_progress
    s) (last_scrub_time s) (scrub_end_time s) (last_volume_gesture s)
    (last_volume_time s) (volume_gesture_armed s) (last_play_pause_time s)
    (play_pause_armed s) (last_swipe_time s) (last_swipe_direction s)
    (stable_finger_count s) (finger_count_start_time s)
    (hand_first_seen_time s) (hand_was_visible s) (cached_track_info s)
    (last_track_fetch_time s) (position_history s) (last_gesture_time s)
    (frame_count s) (last_hand_landmarks s).
Definition set_scrub_start_progress (v : option Z) (s : State) : State :=
  mkState (spotify_enabled s) (scrubbing_active s) (scrub_start_x s) v
    (last_scrub_time s) (scrub_end_time s) (last_volume_gesture s)
    (last_volume_time s) (volume_gesture_armed s) (last_play_pause_time s)
    (play_pause_armed s) (last_swipe_time s) (last_swipe_direction s)
    (stable_finger_count s) (finger_count_start_time s)
    (hand_first_seen_time s) (hand_was_visible s) (cached_track_info s)
    (last_track_fetch_time s) (position_history s) (last_gesture_time s)
    (frame_count s) (last_hand_landmarks s).
Definition set_last_scrub_time (v : Z) (s : State) : State :=
  mkState (spotify_enabled s) (scrubbing_active s) (scrub_start_x s)
    (scrub_start_progress s) v (scrub_end_time s) (last_volume_gesture s)
    (last_volume_time s) (volume_gesture_armed s) (last_play_pause_time s)
    (play_pause_armed s) (last_swipe_time s) (last_swipe_direction s)
    (stable_finger_count s) (finger_count_start_time s)
    (hand_first_seen_time s) (hand_was_visible s) (cached_track_info s)
    (last_track_fetch_time s) (position_history s) (last_gesture_time s)
    (frame_count s) (last_hand_landmarks s).
Definition set_scrub_end_time (v : Z) (s : State) : State :=
  mkState (spotify_enabled s) (scrubbing_active s) (scrub_start_x s)
    (scrub_start_progress s) (last_scrub_time s) v (last_volume_gesture s)
    (last_volume_time s) (volume_gesture_armed s) (last_play_pause_time s)
    (play_pause_armed s) (last_swipe_time s) (last_swipe_direction s)
    (stable_finger_count s) (finger_count_start_time s)
    (hand_first_seen_time s) (hand_was_visible s) (cached_track_info s)
    (last_track_fetch_time s) (position_history s) (last_gesture_time s)
    (frame_count s) (last_hand_landmarks s).
Definition set_last_volume_gesture (v : option VolumeGesture) (s : State) : State :=
  mkState (spotify_enabled s) (scrubbing_active s) (scrub_start_x s)
    (scrub_start_progress s) (last_scrub_time s) (scrub_end_time s) v
    (last_volume_time s) (volume_gesture_armed s) (last_play_pause_time s)
    (play_pause_armed s) (last_swipe_time s) (last_swipe_direction s)
    (stable_finger_count s) (finger_count_start_time s)
    (hand_first_seen_time s) (hand_was_visible s) (cached_track_info s)
    (last_track_fetch_time s) (position_history s) (last_gesture_time s)
    (frame_count s) (last_hand_landmarks s).
Definition set_last_volume_time (v : Z) (s : State) : State :=
  mkState (spotify_enabled s) (scrubbing_active s) (scrub_start_x s)
    (scrub_start_progress s) (last_scrub_time s) (scrub_end_time s)
    (last_volume_gesture s) v (volume_gesture_armed s) (last_play_pause_time
    s) (play_pause_armed s) (last_swipe_time s) (last_swipe_direction s)
    (stable_finger_count s) (finger_count_start_time s)
    (hand_first_seen_time s) (hand_was_visible s) (cached_track_info s)
    (last_track_fetch_time s) (position_history s) (last_gesture_time s)
    (frame_count s) (last_hand_landmarks s).
Definition set_volume_gesture_armed (v : bool) (s : State) : State :=
  mkState (spotify_enabled s) (scrubbing_active s) (scrub_start_x s)
    (scrub_start_progress s) (last_scrub_time s) (scrub_end_time s)
    (last_volume_gesture s) (last_volume_time s) v (last_play_pause_time s)
    (play_pause_armed s) (last_swipe_time s) (last_swipe_direction s)
    (stable_finger_count s) (finger_count_start_time s)
    (hand_first_seen_time s) (hand_was_visible s) (cached_track_info s)
    (last_track_fetch_time s) (position_history s) (last_gesture_time s)
    (frame_count s) (last_hand_landmarks s).
Definition set_last_play_pause_time (v : Z) (s : State) : State :=
  mkState (spotify_enabled s) (scrubbing_active s) (scrub_start_x s)
    (scrub_start_progress s) (last_scrub_time s) (scrub_end_time s)
    (last_volume_gesture s) (last_volume_time s) (volume_gesture_armed s) v
    (play_pause_armed s) (last_swipe_time s) (last_swipe_direction s)
    (stable_finger_count s) (finger_count_start_time s)
    (hand_first_seen_time s) (hand_was_visible s) (cached_track_info s)
    (last_track_fetch_time s) (position_history s) (last_gesture_time s)
    (frame_count s) (last_hand_landmarks s).
Definition set_play_pause_armed (v : bool) (s : State) : State :=
  mkState (spotify_enabled s) (scrubbing_active s) (scrub_start_x s)
    (scrub_start_progress s) (last_scrub_time s) (scrub_end_time s)
    (last_volume_gesture s) (last_volume_time s) (volume_gesture_armed s)
    (last_play_pause_time s) v (last_swipe_time s) (last_swipe_direction s)
    (stable_finger_count s) (finger_count_start_time s)
    (hand_first_seen_time s) (hand_was_visible s) (cached_track_info s)
    (last_track_fetch_time s) (position_history s) (last_gesture_time s)
    (frame_count s) (last_hand_landmarks s).
Definition set_last_swipe_time (v : Z) (s : State) : State :=
  mkState (spotify_enabled s) (scrubbing_active s) (scrub_start_x s)
    (scrub_start_progress s) (last_scrub_time s) (scrub_end_time s)
    (last_volume_gesture s) (last_volume_time s) (volume_gesture_armed s)
    (last_play_pause_time s) (play_pause_armed s) v (last_swipe_direction s)
    (stable_finger_count s) (finger_count_start_time s)
    (hand_first_seen_time s) (hand_was_visible s) (cached_track_info s)
    (last_track_fetch_time s) (position_history s) (last_gesture_time s)
    (frame_count s) (last_hand_landmarks s).
Definition set_last_swipe_direction (v : option SwipeDirection) (s : State) : State :=
  mkState (spotify_enabled s) (scrubbing_active s) (scrub_start_x s)
    (scrub_start_progress s) (last_scrub_time s) (scrub_end_time s)
    (last_volume_gesture s) (last_volume_time s) (volume_gesture_armed s)
    (last_play_pause_time s) (play_pause_armed s) (last_swipe_time s) v
    (stable_finger_count s) (finger_count_start_time s)
    (hand_first_seen_time s) (hand_was_visible s) (cached_track_info s)
    (last_track_fetch_time s) (position_history s) (last_gesture_time s)
    (frame_count s) (last_hand_landmarks s).
Definition set_stable_finger_count (v : option Z) (s : State) : State :=
  mkState (spotify_enabled s) (scrubbing_active s) (scrub_start_x s)
    (scrub_start_progress s) (last_scrub_time s) (scrub_end_time s)
    (last_volume_gesture s) (last_volume_time s) (volume_gesture_armed s)
    (last_play_pause_time s) (play_pause_armed s) (last_swipe_time s)
    (last_swipe_direction s) v (finger_count_start_time s)
    (hand_first_seen_time s) (hand_was_visible s) (cached_track_info s)
    (last_track_fetch_time s) (position_history s) (last_gesture_time s)
    (frame_count s) (last_hand_landmarks s).
Definition set_finger_count_start_time (v : Z) (s : State) : State :=
  mkState (spotify_enabled s) (scrubbing_active s) (scrub_start_x s)
    (scrub_start_progress s) (last_scrub_time s) (scrub_end_time s)
    (last_volume_gesture s) (last_volume_time s) (volume_gesture_armed s)
    (last_play_pause_time s) (play_pause_armed s) (last_swipe_time s)
    (last_swipe_direction s) (stable_finger_count s) v (hand_first_seen_time
    s) (hand_was_visible s) (cached_track_info s) (last_track_fetch_time s)
    (position_history s) (last_gesture_time s) (frame_count s)
    (last_hand_landmarks s).
Definition set_hand_first_seen_time (v : Z) (s : State) : State :=
  mkState (spotify_enabled s) (scrubbing_active s) (scrub_start_x s)
    (scrub_start_progress s) (last_scrub_time s) (scrub_end_time s)
    (last_volume_gesture s) (last_volume_time s) (volume_gesture_armed s)
    (last_play_pause_time s) (play_pause_armed s) (last_swipe_time s)
    (last_swipe_direction s) (stable_finger_count s)
    (finger_count_start_time s) v (hand_was_visible s) (cached_track_info s)
    (last_track_fetch_time s) (position_history s) (last_gesture_time s)
    (frame_count s) (last_hand_landmarks s).
Definition set_hand_was_visible (v : bool) (s : State) : State :=
  mkState (spotify_enabled s) (scrubbing_active s) (scrub_start_x s)
    (scrub_start_progress s) (last_scrub_time s) (scrub_end_time s)
    (last_volume_gesture s) (last_volume_time s) (volume_gesture_armed s)
    (last_play_pause_time s) (play_pause_armed s) (last_swipe_time s)
    (last_swipe_direction s) (stable_finger_count s)
    (finger_count_start_time s) (hand_first_seen_time s) v
    (cached_track_info s) (last_track_fetch_time s) (position_history s)
    (last_gesture_time s) (frame_count s) (last_hand_landmarks s).
Definition set_cached_track_info (v : option TrackInfo) (s : State) : State :=
  mkState (spotify_enabled s) (scrubbing_active s) (scrub_start_x s)
    (scrub_start_progress s) (last_scrub_time s) (scrub_end_time s)
    (last_volume_gesture s) (last_volume_time s) (volume_gesture_armed s)
    (last_play_pause_time s) (play_pause_armed s) (last_swipe_time s)
    (last_swipe_direction s) (stable_finger_count s)
    (finger_count_start_time s) (hand_first_seen_time s) (hand_was_visible
    s) v (last_track_fetch_time s) (position_history s) (last_gesture_time
    s) (frame_count s) (last_hand_landmarks s).
Definition set_last_track_fetch_time (v : Z) (s : State) : State :=
  mkState (spotify_enabled s) (scrubbing_active s) (scrub_start_x s)
    (scrub_start_progress s) (last_scrub_time s) (scrub_end_time s)
    (last_volume_gesture s) (last_volume_time s) (volume_gesture_armed s)
    (last_play_pause_time s) (play_pause_armed s) (last_swipe_time s)
    (last_swipe_direction s) (stable_finger_count s)
    (finger_count_start_time s) (hand_first_seen_time s) (hand_was_visible
    s) (cached_track_info s) v (position_history s) (last_gesture_time s)
    (frame_count s) (last_hand_landmarks s).
Definition set_position_history (v : list Landmarks) (s : State) : State :=
  mkState (spotify_enabled s) (scrubbing_active s) (scrub_start_x s)
    (scrub_start_progress s) (last_scrub_time s) (scrub_end_time s)
    (last_volume_gesture s) (last_volume_time s) (volume_gesture_armed s)
    (last_play_pause_time s) (play_pause_armed s) (last_swipe_time s)
    (last_swipe_direction s) (stable_finger_count s)
    (finger_count_start_time s) (hand_first_seen_time s) (hand_was_visible
    s) (cached_track_info s) (last_track_fetch_time s) v (last_gesture_time
    s) (frame_count s) (last_hand_landmarks s).
Definition set_last_gesture_time (v : Z) (s : State) : State :=
  mkState (spotify_enabled s) (scrubbing_active s) (scrub_start_x s)
    (scrub_start_progress s) (last_scrub_time s) (scrub_end_time s)
    (last_volume_gesture s) (last_volume_time s) (volume_gesture_armed s)
    (last_play_pause_time s) (play_pause_armed s) (last_swipe_time s)
    (last_swipe_direction s) (stable_finger_count s)
    (finger_count_start_time s) (hand_first_seen_time s) (hand_was_visible
    s) (cached_track_info s) (last_track_fetch_time s) (position_history s)
    v (frame_count s) (last_hand_landmarks s).
Definition set_frame_count (v : Z) (s : State) : State :=
  mkState (spotify_enabled s) (scrubbing_active s) (scrub_start_x s)
    (scrub_start_progress s) (last_scrub_time s) (scrub_end_time s)
    (last_volume_gesture s) (last_volume_time s) (volume_gesture_armed s)
    (last_play_pause_time s) (play_pause_armed s) (last_swipe_time s)
    (last_swipe_direction s) (stable_finger_count s)
    (finger_count_start_time s) (hand_first_seen_time s) (hand_was_visible
    s) (cached_track_info s) (last_track_fetch_time s) (position_history s)
    (last_gesture_time s) v (last_hand_landmarks s).
Definition set_last_hand_landmarks (v : option (list Landmarks)) (s : State) : State :=
  mkState (spotify_enabled s) (scrubbing_active s) (scrub_start_x s)
    (scrub_start_progress s) (last_scrub_time s) (scrub_end_time s)
    (last_volume_gesture s) (last_volume_time s) (volume_gesture_armed s)
    (last_play_pause_time s) (play_pause_armed s) (last_swipe_time s)
    (last_swipe_direction s) (stable_finger_count s)
    (finger_count_start_time s) (hand_first_seen_time s) (hand_was_visible
    s) (cached_track_info s) (last_track_fetch_time s) (position_history s)
    (last_gesture_time s) (frame_count s) v.

(** The fixed attributes of the two objects, in milliseconds. *)
Definition post_scrub_cooldown : Z := 2000.
Definition swipe_same_direction_cooldown : Z := 800.
Definition swipe_opposite_direction_cooldown : Z := 3000.
Definition swipe_to_other_action_cooldown : Z := 1000.
Definition stability_threshold : Z := 300.
Definition hand_appearance_cooldown : Z := 600.
Definition track_fetch_interval : Z := 2000.
Definition cooldown_seconds : Z := 500.

(** ** The monad of methods *)

Definition M (A : Type) : Type := State -> Result A * State * list Call.

Definition ret {A} (a : A) : M A := fun s => (Ok a, s, []).

Definition bind {A B} (m : M A) (k : A -> M B) : M B :=
  fun s =>
    match m s with
    | (Ok a, s1, o1) =>
        match k a s1 with
        | (r, s2, o2) => (r, s2, o1 ++ o2)
        end
    | (Raise e, s1, o1) => (Raise e, s1, o1)
    end.

Notation "x <- m ;; k" := (bind m (fun x => k))
  (at level 61, m at next level, right associativity).
Notation "m ;; k" := (bind m (fun _ => k))
  (at level 61, right associativity).

Definition raise {A} (e : Exception) : M A := fun s => (Raise e, s, []).
Definition gets {A} (f : State -> A) : M A := fun s => (Ok (f s), s, []).
Definition modify (g : State -> State) : M unit := fun s => (Ok tt, g s, []).
Definition when (b : bool) (m : M unit) : M unit := if b then m else ret tt.

(** The three components of an outcome. *)
Definition result_of {A} (x : Result A * State * list Call) : Result A := fst (fst x).
Definition state_of {A} (x : Result A * State * list Call) : State := snd (fst x).
Definition calls_of {A} (x : Result A * State * list Call) : list Call := snd x.

(** [self.spotify.<method>(...)]: the attribute is missing when the
    constructor of [SpotifyController] raised ([main.py], lines 9-15). *)
Definition spotify (c : Call) : M unit :=
  fun s => if spotify_enabled s then (Ok tt, s, [c])
           else (Raise AttributeError, s, []).

(** [l[i]] for a non-negative index. *)
Definition index {A} (l : list A) (i : nat) : M A :=
  match nth_error l i with
  | Some a => ret a
  | None => raise IndexError
  end.

(** [l[-1]]. *)
Definition index_last {A} (l : list A) : M A :=
  match rev l with
  | a :: _ => ret a
  | [] => raise IndexError
  end.

Fixpoint mapM {A B} (f : A -> M B) (l : list A) : M (list B) :=
  match l with
  | [] => ret []
  | a :: l' => b <- f a ;; bs <- mapM f l' ;; ret (b :: bs)
  end.

(** ** hand_tracker.py *)

(** [deque.append] on a deque with [maxlen = 10]. *)
Definition maxlen : nat := 10.

Definition deque_append {A} (x : A) (d : list A) : list A :=
  if (length d <? maxlen)%nat then d ++ [x] else tl d ++ [x].

(** [HandTracker.detect_swipe] (lines 118-144).  The comparison
    [abs(horizontal_distance) > vertical_distance * 1.5] on integers is
    [2 * |h| > 3 * v]. *)
Definition detect_swipe (landmarks : Landmarks) : M (option Gesture) :=
  history <- gets position_history ;;
  if (length history <? 8)%nat then ret None else
  wrist_positions <- mapM (fun pos => index pos 0) history ;;
  start <- index wrist_positions 0 ;;
  end_ <- index_last wrist_positions ;;
  let start_x := fst start in
  let end_x := fst end_ in
  let start_y := snd start in
  let end_y := snd end_ in
  let horizontal_distance := end_x - start_x in
  let vertical_distance := Z.abs (end_y - start_y) in
  let horizontal_threshold := 120 in
  let vertical_threshold := 80 in
  if (Z.abs horizontal_distance >? horizontal_threshold)
     && (vertical_distance <? vertical_threshold) then
    if 2 * Z.abs horizontal_distance >? 3 * vertical_distance then
      modify (set_position_history []) ;;
      if horizontal_distance >? 0 then ret (Some swipe_right)
      else ret (Some swipe_left)
    else ret None
  else ret None.

(** [HandTracker.detect_pinch] (lines 146-161): the Euclidean distance of
    thumb tip and index tip is below 40 exactly when its square is
    below 1600. *)
Definition detect_pinch (landmarks : Landmarks) : M bool :=
  thumb_tip <- index landmarks 4 ;;
  index_tip <- index landmarks 8 ;;
  let dx := fst thumb_tip - fst index_tip in
  let dy := snd thumb_tip - snd index_tip in
  ret (dx * dx + dy * dy <? 40 * 40).

(** [HandTracker.count_extended_fingers] (lines 163-191). *)
Definition finger_tips : list nat := [4; 8; 12; 16; 20]%nat.
Definition finger_pips : list nat := [3; 6; 10; 14; 18]%nat.

Fixpoint count_fingers_loop (landmarks : Landmarks) (range : list nat)
    (extended_count : Z) : M Z :=
  match range with
  | [] => ret extended_count
  | i :: range' =>
      t <- index finger_tips i ;;
      tip <- index landmarks t ;;
      p <- index finger_pips i ;;
      pip <- index landmarks p ;;
      let extended :=
        if (i =? 0)%nat then Z.abs (fst tip - fst pip) >? 30
        else snd tip <? snd pip - 10 in
      count_fingers_loop landmarks range'
        (if extended then extended_count + 1 else extended_count)
  end.

Definition count_extended_fingers (landmarks : Landmarks) : M Z :=
  count_fingers_loop landmarks (seq 0 5) 0.

(** [HandTracker.can_trigger_gesture] and [mark_gesture_triggered]; the
    argument is the reading of the clock. *)
Definition can_trigger_gesture (current_time : Z) : M bool :=
  last <- gets last_gesture_time ;;
  ret (current_time - last >? cooldown_seconds).

Definition mark_gesture_triggered (current_time : Z) : M unit :=
  modify (set_last_gesture_time current_time).

(** ** main.py *)

(** [GestureSpotifyController.get_stable_finger_count] (lines 56-67). *)
Definition get_stable_finger_count (current_time : Z) (finger_count : Z)
    : M (option Z) :=
  candidate <- gets stable_finger_count ;;
  if negb (match candidate with
           | Some c => finger_count =? c
           | None => false
           end) then
    modify (set_stable_finger_count (Some finger_count)) ;;
    modify (set_finger_count_start_time current_time) ;;
    ret None
  else
    started <- gets finger_count_start_time ;;
    if current_time - started >=? stability_threshold then
      ret (Some finger_count)
    else ret None.

(** Lines 77-103 of [handle_gestures]: the swipe. *)
Definition swipe_arbitration (current_time : Z) (gesture : option Gesture)
    : M unit :=
  last <- gets last_swipe_time ;;
  let time_since_swipe := current_time - last in
  direction <- gets last_swipe_direction ;;
  match gesture with
  | Some swipe_left =>
      let cooldown :=
        match direction with
        | Some dir_left => swipe_same_direction_cooldown
        | Some dir_right => swipe_opposite_direction_cooldown
        | None => 0
        end in
      when (time_since_swipe >? cooldown)
        (spotify previous_track ;;
         modify (set_last_swipe_time current_time) ;;
         modify (set_last_swipe_direction (Some dir_left)))
  | Some swipe_right =>
      let cooldown :=
        match direction with
        | Some dir_right => swipe_same_direction_cooldown
        | Some dir_left => swipe_opposite_direction_cooldown
        | None => 0
        end in
      when (time_since_swipe >? cooldown)
        (spotify next_track ;;
         modify (set_last_swipe_time current_time) ;;
         modify (set_last_swipe_direction (Some dir_right)))
  | _ => ret tt
  end.

(** Lines 105-116 of [handle_gestures]: play/pause. *)
Definition play_pause_arbitration (current_time : Z) (stable_count : option Z)
    : M unit :=
  let play_pause_cooldown := 1500 in
  last <- gets last_play_pause_time ;;
  let play_pause_in_cooldown := current_time - last <? play_pause_cooldown in
  swiped <- gets last_swipe_time ;;
  let after_swipe_cooldown :=
    current_time - swiped <? swipe_to_other_action_cooldown in
  match stable_count with
  | Some 1 =>
      armed <- gets play_pause_armed ;;
      when (armed && negb play_pause_in_cooldown && negb after_swipe_cooldown)
        (spotify play_pause ;;
         modify (set_last_play_pause_time current_time) ;;
         modify (set_play_pause_armed false))
  | Some _ =>
      when (negb play_pause_in_cooldown) (modify (set_play_pause_armed true))
  | None => ret tt
  end.

(** Lines 118-140 of [handle_gestures]: volume. *)
Definition volume_arbitration (current_time : Z) (stable_count : option Z)
    : M unit :=
  let volume_cooldown := 1000 in
  last <- gets last_volume_time ;;
  let volume_in_cooldown := current_time - last <? volume_cooldown in
  swiped <- gets last_swipe_time ;;
  let after_swipe_cooldown :=
    current_time - swiped <? swipe_to_other_action_cooldown in
  armed <- gets volume_gesture_armed ;;
  remembered <- gets last_volume_gesture ;;
  match stable_count with
  | None => ret tt
  | Some n =>
      if negb ((n =? 2) || (n =? 3)) then
        when (negb volume_in_cooldown)
          (modify (set_volume_gesture_armed true) ;;
           modify (set_last_volume_gesture None))
      else if volume_in_cooldown || after_swipe_cooldown then ret tt
      else if negb armed then ret tt
      else if (n =? 2) && negb (match remembered with
                                | Some up => true
                                | _ => false
                                end) then
        spotify (adjust_volume 10) ;;
        modify (set_last_volume_gesture (Some up)) ;;
        modify (set_last_volume_time current_time) ;;
        modify (set_volume_gesture_armed false)
      else if (n =? 3) && negb (match remembered with
                                | Some down => true
                                | _ => false
                                end) then
        spotify (adjust_volume (-10)) ;;
        modify (set_last_volume_gesture (Some down)) ;;
        modify (set_last_volume_time current_time) ;;
        modify (set_volume_gesture_armed false)
      else ret tt
  end.

(** Lines 75-140: what [handle_gestures] does once it has the stable
    count and its own reading of the clock. *)
Definition arbitrate (current_time : Z) (gesture : option Gesture)
    (stable_count : option Z) : M unit :=
  swipe_arbitration current_time gesture ;;
  play_pause_arbitration current_time stable_count ;;
  volume_arbitration current_time stable_count.

(** [GestureSpotifyController.handle_gestures] (lines 69-140).
    [stable_time] is the clock as [get_stable_finger_count] reads it,
    [current_time] the reading of line 74. *)
Definition handle_gestures (stable_time current_time : Z)
    (gesture : option Gesture) (landmarks : option Landmarks)
    (finger_count : Z) : M unit :=
  enabled <- gets spotify_enabled ;;
  if negb enabled then ret tt else
  stable_count <- get_stable_finger_count stable_time finger_count ;;
  arbitrate current_time gesture stable_count.

(** [GestureSpotifyController.get_track_info_cached] (lines 142-147);
    [reply] is what the backend answers if it is asked now. *)
Definition get_track_info_cached (current_time : Z) (reply : option TrackInfo)
    : M (option TrackInfo) :=
  fetched <- gets last_track_fetch_time ;;
  when (current_time - fetched >? track_fetch_interval)
    (spotify get_current_track_info ;;
     modify (set_cached_track_info reply) ;;
     modify (set_last_track_fetch_time current_time)) ;;
  gets cached_track_info.

(** What one iteration of the loop of [run] receives from outside: the
    camera frame as the estimator sees it, the readings of the clock at
    each call site, and the answers of the backend. *)
Record Frame : Type := mkFrame {
  detected : list Landmarks;      (* hands found if the estimator runs *)
  frame_height : Z;               (* frame.shape[0] *)
  current_time : Z;               (* line 176 *)
  fetch_time : Z;                 (* get_track_info_cached of line 196 *)
  fetch_reply : option TrackInfo;
  scrub_fetch_time : Z;           (* get_track_info_cached of line 249 or 259 *)
  scrub_fetch_reply : option TrackInfo;
  trigger_time : Z;               (* can_trigger_gesture *)
  mark_time : Z;                  (* mark_gesture_triggered *)
  stable_time : Z;                (* get_stable_finger_count *)
  gesture_time : Z                (* line 74 *)
}.

(** An entry of [all_hands_data] (lines 223-229). *)
Record HandData : Type := mkHandData {
  hd_landmarks : Landmarks;
  hd_finger_count : Z;
  is_pinching : bool;
  wrist_x : Z;
  wrist_y : Z
}.

Definition hand_data (hand_lms : Landmarks) : M HandData :=
  let landmarks := hand_lms in
  finger_count <- count_extended_fingers landmarks ;;
  pinching <- detect_pinch landmarks ;;
  wrist <- index landmarks 0 ;;
  ret (mkHandData landmarks finger_count pinching (fst wrist) (snd wrist)).

(** [HandTracker.get_hand_landmarks] (lines 47-58), without the copy kept
    for drawing. *)
Definition get_hand_landmarks (f : Frame) : M (option (list Landmarks)) :=
  match detected f with
  | [] => ret None
  | hands => ret (Some hands)
  end.

(** Lines 231-241: the roles of the two hands, [(trigger, control)]. *)
Definition scrub_roles (all_hands_data : list HandData)
    : option HandData * option HandData :=
  match all_hands_data with
  | [hand1; hand2] =>
      if (hd_finger_count hand1 >=? 4) && is_pinching hand2 then
        (Some hand1, Some hand2)
      else if (hd_finger_count hand2 >=? 4) && is_pinching hand1 then
        (Some hand2, Some hand1)
      else (None, None)
  | _ => (None, None)
  end.

(** Lines 244-266: a frame with a trigger hand and a control hand. *)
Definition scrub (f : Frame) (scrub_control_hand : HandData) : M unit :=
  let pinch_x := wrist_x scrub_control_hand in
  active <- gets scrubbing_active ;;
  if negb active then
    modify (set_scrubbing_active true) ;;
    modify (set_scrub_start_x (Some pinch_x)) ;;
    track_info <- get_track_info_cached (scrub_fetch_time f)
                    (scrub_fetch_reply f) ;;
    match track_info with
    | Some info => modify (set_scrub_start_progress (Some (progress_ms info)))
    | None => ret tt
    end
  else
    start_x <- gets scrub_start_x ;;
    start_progress <- gets scrub_start_progress ;;
    match start_x, start_progress with
    | Some x0, Some p0 =>
        let delta_x := pinch_x - x0 in
        let scrub_ms := delta_x * 250 in
        last <- gets last_scrub_time ;;
        if (Z.abs scrub_ms >? 500) && (current_time f - last >? 200) then
          track_info <- get_track_info_cached (scrub_fetch_time f)
                          (scrub_fetch_reply f) ;;
          match track_info with
          | Some info =>
              let new_position :=
                Z.max 0 (Z.min (p0 + scrub_ms) (duration_ms info - 1000)) in
              spotify (seek_position new_position) ;;
              modify (set_last_scrub_time (current_time f))
          | None => ret tt
          end
        else ret tt
    | _, _ => ret tt
    end.

(** Lines 296-318: one hand, or at least not two. *)
Definition single_hand (f : Frame) (in_hand_appearance_cooldown : bool)
    (all_hands_data : list HandData) : M unit :=
  ended <- gets scrub_end_time ;;
  let in_post_scrub_cooldown :=
    current_time f - ended <? post_scrub_cooldown in
  let in_any_cooldown := in_post_scrub_cooldown || in_hand_appearance_cooldown in
  data <- index all_hands_data 0 ;;
  let landmarks := hd_landmarks data in
  let finger_count := hd_finger_count data in
  modify (fun s => set_position_history
                     (deque_append landmarks (position_history s)) s) ;;
  wrist <- index landmarks 0 ;;
  let hand_in_swipe_zone := 100 * snd wrist <? 85 * frame_height f in
  swipe <- detect_swipe landmarks ;;
  gesture <-
    match swipe with
    | Some sw =>
        can <- can_trigger_gesture (trigger_time f) ;;
        if can && hand_in_swipe_zone && negb in_any_cooldown then
          mark_gesture_triggered (mark_time f) ;; ret (Some sw)
        else ret None
    | None => ret None
    end ;;
  let gesture :=
    if is_pinching data && negb in_any_cooldown then Some pinch
    else gesture in
  if negb in_any_cooldown then
    handle_gestures (stable_time f) (gesture_time f) gesture (Some landmarks)
      finger_count
  else
    handle_gestures (stable_time f) (gesture_time f) None (Some landmarks) 0.

(** Lines 271-318: hands are there, but not a scrubbing pair. *)
Definition no_scrub (f : Frame) (in_hand_appearance_cooldown : bool)
    (all_hands_data : list HandData) : M unit :=
  active <- gets scrubbing_active ;;
  when active (modify (set_scrub_end_time (current_time f))) ;;
  modify (set_scrubbing_active false) ;;
  modify (set_scrub_start_x None) ;;
  modify (set_scrub_start_progress None) ;;
  let two_hands_visible := (length all_hands_data =? 2)%nat in
  if two_hands_visible then
    handle_gestures (stable_time f) (gesture_time f) None None 0 ;;
    _ <- index all_hands_data 0 ;;
    ret tt
  else single_hand f in_hand_appearance_cooldown all_hands_data.

(** Lines 209-325: at least one hand. *)
Definition hands_visible (f : Frame) (hand_landmarks : list Landmarks)
    : M unit :=
  visible <- gets hand_was_visible ;;
  when (negb visible)
    (modify (set_hand_first_seen_time (current_time f)) ;;
     modify (set_hand_was_visible true) ;;
     modify (set_position_history [])) ;;
  first_seen <- gets hand_first_seen_time ;;
  let in_hand_appearance_cooldown :=
    current_time f - first_seen <? hand_appearance_cooldown in
  all_hands_data <- mapM hand_data hand_landmarks ;;
  match scrub_roles all_hands_data with
  | (Some _, Some scrub_control_hand) => scrub f scrub_control_hand
  | _ => no_scrub f in_hand_appearance_cooldown all_hands_data
  end.

(** Lines 327-331: no hand. *)
Definition no_hands (f : Frame) : M unit :=
  modify (set_hand_was_visible false) ;;
  modify (set_scrubbing_active false) ;;
  modify (set_scrub_start_x None) ;;
  modify (set_scrub_start_progress None) ;;
  handle_gestures (stable_time f) (gesture_time f) None None 0.

(** One iteration of the loop of [run] (lines 170-338), drawing left out. *)
Definition process_every_n_frames : Z := 2.

Definition loop_body (f : Frame) : M unit :=
  modify (fun s => set_frame_count (frame_count s + 1) s) ;;
  count <- gets frame_count ;;
  hand_landmarks <-
    (if count mod process_every_n_frames =? 0 then
       hand_landmarks <- get_hand_landmarks f ;;
       modify (set_last_hand_landmarks
                 match hand_landmarks with
                 | Some (_ :: _) => hand_landmarks
                 | _ => None
                 end) ;;
       ret hand_landmarks
     else gets last_hand_landmarks) ;;
  enabled <- gets spotify_enabled ;;
  when enabled
    (_ <- get_track_info_cached (fetch_time f) (fetch_reply f) ;; ret tt) ;;
  match hand_landmarks with
  | Some (hand :: hands) => hands_visible f (hand :: hands)
  | _ => no_hands f
  end.

(** The loop of [run] over the frames the camera delivers: the calls of
    each iteration, in order, until the frames end or an exception
    leaves the loop. *)
Fixpoint run (frames : list Frame) (s : State)
    : Result unit * State * list (list Call) :=
  match frames with
  | [] => (Ok tt, s, [])
  | f :: frames' =>
      match loop_body f s with
      | (Ok _, s1, o) =>
          match run frames' s1 with
          | (r, s2, os) => (r, s2, o :: os)
          end
      | (Raise e, s1, o) => (Raise e, s1, [o])
      end
  end.

(** ** Vocabulary of the statements *)

(** The wrist of a history entry, and the oldest and newest wrists of a
    position history. *)
Definition wrist_of (pos : Landmarks) : Point := nth 0 pos (0, 0).
Definition oldest_wrist (history : list Landmarks) : Point :=
  wrist_of (hd [] history).
Definition newest_wrist (history : list Landmarks) : Point :=
  wrist_of (last history []).

(** The classification of section 4.2 on a history. *)
Definition swipe_dx (history : list Landmarks) : Z :=
  fst (newest_wrist history) - fst (oldest_wrist history).
Definition swipe_dy (history : list Landmarks) : Z :=
  Z.abs (snd (newest_wrist history) - snd (oldest_wrist history)).
Definition swipe_shaped (history : list Landmarks) : Prop :=
  Z.abs (swipe_dx history) > 120 /\ swipe_dy history < 80 /\
  2 * Z.abs (swipe_dx history) > 3 * swipe_dy history.

(** ** Sample data

    Hands of 21 landmarks for the concrete runs below.  All joints sit on
    the wrist but the tips: [thumb_tip] and [index_tip] are given, and the
    first [raised] of middle, ring and little finger point up. *)
Definition sample_hand (wrist thumb_tip index_tip : Point) (raised : nat)
    : Landmarks :=
  let up_tip := (fst wrist, snd wrist - 50) in
  let tip (k : nat) := if (k <=? raised)%nat then up_tip else wrist in
  [ wrist; wrist; wrist; wrist; thumb_tip;
    wrist; wrist; wrist; index_tip;
    wrist; wrist; wrist; tip 1%nat;
    wrist; wrist; wrist; tip 2%nat;
    wrist; wrist; wrist; tip 3%nat ].

(** Open hand, five fingers. *)
Definition open_hand (x y : Z) : Landmarks :=
  sample_hand (x, y) (x + 40, y) (x + 100, y - 50) 3.

(** Thumb tip on index tip, nothing extended. *)
Definition pinching_hand (x y : Z) : Landmarks :=
  sample_hand (x, y) (x, y) (x, y) 0.

(** A fist with the index tip held away from the thumb: no finger, no pinch. *)
Definition fist (x y : Z) : Landmarks :=
  sample_hand (x, y) (x, y) (x + 100, y) 0.

(** Index finger alone, then with middle, then with middle and ring. *)
Definition one_finger (x y : Z) : Landmarks :=
  sample_hand (x, y) (x, y) (x + 100, y - 50) 0.
Definition two_fingers (x y : Z) : Landmarks :=
  sample_hand (x, y) (x, y) (x + 100, y - 50) 1.
Definition three_fingers (x y : Z) : Landmarks :=
  sample_hand (x, y) (x, y) (x + 100, y - 50) 2.

(** Ten positions of a fist moving right from x = 100 to x = 260. *)
Definition rightward_history : list Landmarks :=
  map (fun x => fist x 200) [100; 118; 136; 154; 172; 190; 208; 226; 244; 260].

Definition set_history_of (history : list Landmarks) : State :=
  set_position_history history (init true).

(** Consecutive evaluations of the stability filter on one raw count, at
    the given readings of the clock. *)
Definition evaluations (finger_count : Z) (times : list Z) : M (list (option Z)) :=
  mapM (fun t => get_stable_finger_count t finger_count) times.

(** The arbitration of lines 75-140 on a sequence of stable counts, each
    with the reading of the clock at which it is sampled; no swipe, no
    pinch. *)
Definition stable_samples (samples : list (Z * Z)) : M (list unit) :=
  mapM (fun sample => arbitrate (fst sample) None (Some (snd sample))) samples.

Definition is_play_pause (c : Call) : bool :=
  match c with
  | play_pause => true
  | _ => false
  end.

Definition is_volume (c : Call) : bool :=
  match c with
  | adjust_volume _ => true
  | _ => false
  end.

Definition is_swipe_command (c : Call) : bool :=
  match c with
  | previous_track | next_track => true
  | _ => false
  end.

(** The conditions of lines 109-116 and 121-140, read on the state in
    which the block starts. *)
Definition play_pause_fires (now : Z) (stable_count : option Z) (s : State) : Prop :=
  stable_count = Some 1 /\ play_pause_armed s = true /\
  now - last_play_pause_time s >= 1500 /\ now - last_swipe_time s >= 1000.

Definition play_pause_rearms (now : Z) (stable_count : option Z) (s : State) : Prop :=
  stable_count <> None /\ stable_count <> Some 1 /\
  now - last_play_pause_time s >= 1500.

Definition volume_fires (now : Z) (stable_count : option Z) (s : State)
    (n : Z) (direction : VolumeGesture) : Prop :=
  stable_count = Some n /\ volume_gesture_armed s = true /\
  last_volume_gesture s <> Some direction /\
  now - last_volume_time s >= 1000 /\ now - last_swipe_time s >= 1000.

Definition volume_rearms (now : Z) (stable_count : option Z) (s : State) : Prop :=
  stable_count <> None /\ stable_count <> Some 2 /\ stable_count <> Some 3 /\
  now - last_volume_time s >= 1000.

Definition swipe_command (d : SwipeDirection) : Call :=
  match d with
  | dir_left => previous_track
  | dir_right => next_track
  end.

Definition swipe_gesture (d : SwipeDirection) : Gesture :=
  match d with
  | dir_left => swipe_left
  | dir_right => swipe_right
  end.

(** The cooldown of lines 78-83 and 92-97 for a swipe in direction [d]. *)
Definition swipe_cooldown (d : SwipeDirection) (s : State) : Z :=
  match last_swipe_direction s with
  | None => 0
  | Some d' =>
      match d, d' with
      | dir_left, dir_left | dir_right, dir_right => 800
      | _, _ => 3000
      end
  end.

(** Consecutive calls of [handle_gestures] with raw finger counts, no
    gesture label, both readings of the clock equal; and what the
    stability filter reports on the same raw counts. *)
Definition raw_samples (samples : list (Z * Z)) : M (list unit) :=
  mapM (fun sample =>
          handle_gestures (fst sample) (fst sample) None None (snd sample))
       samples.

Definition filter_reports (samples : list (Z * Z)) : M (list (option Z)) :=
  mapM (fun sample => get_stable_finger_count (fst sample) (snd sample)) samples.

(** Two fingers held for 2.5 s, then three fingers held for 1.4 s. *)
Definition two_then_three : list (Z * Z) :=
  [(1000000, 2); (1000300, 2); (1001400, 2); (1002500, 2);
   (1003600, 3); (1003900, 3); (1005000, 3)].

(** What the pure methods of the tracker compute on the landmarks of a
    hand: they neither read nor write the state. *)
Definition features (hand_lms : Landmarks) : Result HandData :=
  result_of (hand_data hand_lms (init true)).

Definition all_features (hand_landmarks : list Landmarks) : Result (list HandData) :=
  result_of (mapM hand_data hand_landmarks (init true)).

(** The hands that an iteration of the loop works on: the estimator runs
    on every second frame, the other frames reuse its last answer. *)
Definition frame_hands (f : Frame) (s : State) : list Landmarks :=
  if (frame_count s + 1) mod process_every_n_frames =? 0 then detected f
  else match last_hand_landmarks s with
       | Some hands => hands
       | None => []
       end.

(** The outcome of a method seen through a postcondition. *)
Definition wp {A} (m : M A) (s : State)
    (Q : Result A -> State -> list Call -> Prop) : Prop :=
  Q (result_of (m s)) (state_of (m s)) (calls_of (m s)).

(** A method that only computes: the same result in every state, no
    write, no call. *)
Definition pure {A} (m : M A) : Prop := exists r, forall s, m s = (r, s, []).

(** The state in which the branches of an iteration start: the frame is
    counted and, on every second frame, the answer of the estimator kept
    (lines 175-185). *)
Definition counted (f : Frame) (s : State) : State :=
  let s0 := set_frame_count (frame_count s + 1) s in
  if (frame_count s + 1) mod process_every_n_frames =? 0 then
    set_last_hand_landmarks
      match detected f with
      | [] => None
      | hands => Some hands
      end s0
  else s0.

(** Lines 195-196: the state after the refresh of the track information
    for the display. *)
Definition refreshed (f : Frame) (s : State) : State :=
  if spotify_enabled s && (fetch_time f - last_track_fetch_time s >? 2000) then
    set_last_track_fetch_time (fetch_time f)
      (set_cached_track_info (fetch_reply f) s)
  else s.

Definition refresh_calls (f : Frame) (s : State) : list Call :=
  if spotify_enabled s && (fetch_time f - last_track_fetch_time s >? 2000) then
    [get_current_track_info]
  else [].

(** Lines 210-214: a hand that was not there before. *)
Definition appeared (f : Frame) (s : State) : State :=
  if hand_was_visible s then s
  else set_position_history []
         (set_hand_was_visible true
            (set_hand_first_seen_time (current_time f) s)).

(** Lines 271-276: the end of scrubbing while hands are visible. *)
Definition scrub_left (f : Frame) (s : State) : State :=
  set_scrub_start_progress None
    (set_scrub_start_x None
       (set_scrubbing_active false
          (if scrubbing_active s then set_scrub_end_time (current_time f) s
           else s))).

(** Lines 327-330: the bookkeeping of a frame without hands. *)
Definition hands_gone (s : State) : State :=
  set_scrub_start_progress None
    (set_scrub_start_x None
       (set_scrubbing_active false (set_hand_was_visible false s))).

(** The branch of an iteration, by the hands it works on. *)
Definition branch (f : Frame) (hand_landmarks : list Landmarks) : M unit :=
  match hand_landmarks with
  | [] => no_hands f
  | hands => hands_visible f hands
  end.

(** [s'] differs from [s] in the fields of the arbitration at most: the
    stability filter, the arming flags and the time stamps of swipe,
    play/pause and volume. *)
Definition arbitration_only (s s' : State) : Prop :=
  spotify_enabled s' = spotify_enabled s
  /\ scrubbing_active s' = scrubbing_active s
  /\ scrub_start_x s' = scrub_start_x s
  /\ scrub_start_progress s' = scrub_start_progress s
  /\ last_scrub_time s' = last_scrub_time s
  /\ scrub_end_time s' = scrub_end_time s
  /\ hand_first_seen_time s' = hand_first_seen_time s
  /\ hand_was_visible s' = hand_was_visible s
  /\ cached_track_info s' = cached_track_info s
  /\ last_track_fetch_time s' = last_track_fetch_time s
  /\ position_history s' = position_history s
  /\ last_gesture_time s' = last_gesture_time s
  /\ frame_count s' = frame_count s
  /\ last_hand_landmarks s' = last_hand_landmarks s.

(** [s'] agrees with [s] on the backend flag and on every field of the
    arbitration. *)
Definition arbitration_kept (s s' : State) : Prop :=
  spotify_enabled s' = spotify_enabled s
  /\ stable_finger_count s' = stable_finger_count s
  /\ finger_count_start_time s' = finger_count_start_time s
  /\ play_pause_armed s' = play_pause_armed s
  /\ last_play_pause_time s' = last_play_pause_time s
  /\ volume_gesture_armed s' = volume_gesture_armed s
  /\ last_volume_gesture s' = last_volume_gesture s
  /\ last_volume_time s' = last_volume_time s
  /\ last_swipe_time s' = last_swipe_time s
  /\ last_swipe_direction s' = last_swipe_direction s.

(** The commands of the single-hand gestures. *)
Definition is_gesture_command (c : Call) : bool :=
  is_swipe_command c || is_play_pause c || is_volume c.

(** The conditions under which the scrubbing block seeks to [position]
    (lines 253-266), read on the state [s] before the block and on the
    track information [info] it obtains. *)
Definition seek_conditions (f : Frame) (scrub_control_hand : HandData)
    (s : State) (info : TrackInfo) (position : Z) : Prop :=
  scrubbing_active s = true
  /\ exists x0 p0,
       scrub_start_x s = Some x0
       /\ scrub_start_progress s = Some p0
       /\ Z.abs ((wrist_x scrub_control_hand - x0) * 250) > 500
       /\ current_time f - last_scrub_time s > 200
       /\ position
          = Z.max 0 (Z.min (p0 + (wrist_x scrub_control_hand - x0) * 250)
                       (duration_ms info - 1000)).

(** The state in which the branch of an iteration starts, and the outcome
    of the iteration from the outcome of its branch. *)
Definition branch_state (f : Frame) (s : State) : State :=
  refreshed f (counted f s).

Definition after_refresh (f : Frame) (s : State)
    (x : Result unit * State * list Call) : Result unit * State * list Call :=
  (result_of x, state_of x, refresh_calls f (counted f s) ++ calls_of x).

(** The appearance cooldown as the iteration computes it (line 216). *)
Definition in_hand_appearance_cooldown (f : Frame) (s : State) : bool :=
  current_time f - hand_first_seen_time (appeared f (branch_state f s))
  <? hand_appearance_cooldown.

(** What the scrubbing block leaves alone: the history, the appearance
    and post-scrub time stamps, and the arbitration. *)
Definition scrub_kept (s s' : State) : Prop :=
  position_history s' = position_history s
  /\ hand_first_seen_time s' = hand_first_seen_time s
  /\ hand_was_visible s' = hand_was_visible s
  /\ scrub_end_time s' = scrub_end_time s
  /\ arbitration_kept s s'.

(** A cooldown is active for the hands of this iteration: they have just
    appeared, or have been there for less than 0.6 s, or scrubbing was
    active up to now, or ended less than 2.0 s ago (lines 216, 289-290). *)
Definition cooldown_active (f : Frame) (s : State) : Prop :=
  hand_was_visible s = false
  \/ current_time f - hand_first_seen_time s < 600
  \/ scrubbing_active s = true
  \/ current_time f - scrub_end_time s < 2000.

(** The state and the calls, iteration by iteration, of a run. *)
Definition run_state (frames : list Frame) (s : State) : State :=
  snd (fst (run frames s)).

Definition run_calls (frames : list Frame) (s : State) : list (list Call) :=
  snd (run frames s).

Definition run_result (frames : list Frame) (s : State) : Result unit :=
  fst (fst (run frames s)).

(** ** Sample frames

    A 640 x 480 camera; every reading of the clock within an iteration is
    the same instant, and the backend answers with the same track, 200 s
    long and 10 s in. *)
Definition sample_track : TrackInfo := mkTrackInfo 200000 10000 true.

Definition frame_at (t : Z) (hands : list Landmarks) : Frame :=
  mkFrame hands 480 t t (Some sample_track) t (Some sample_track) t t t t.

(** Two hands appear in a scrubbing pose and the pinching hand moves 10
    pixels to the right, all within 100 ms. *)
Definition scrubbing_pair (x : Z) : list Landmarks :=
  [open_hand 100 200; pinching_hand x 200].



(** Scrubbing starts, both hands leave the picture, and one hand comes
    back holding up one finger. *)
Definition scrub_then_vanish : list Frame :=
  [frame_at 1000000 []; frame_at 1000100 (scrubbing_pair 400);
   frame_at 1000200 (scrubbing_pair 400); frame_at 1000300 []].

Definition one_finger_returns : list Frame :=
  map (fun t => frame_at t [one_finger 300 200])
    [1000400; 1000500; 1000600; 1000700; 1000800; 1000900; 1001000;
     1001100; 1001200; 1001300].

Definition toggle_frame : Frame := frame_at 1001400 [one_finger 300 200].

(** After the toggle the hand leaves again. *)
Definition hand_leaves : list Frame := [frame_at 1001500 []].

Definition idle_frame : Frame := frame_at 1003000 [].

(** * Properties *)

(** ** Tactics and basic facts of the monad *)

Ltac unfold_monad :=
  unfold bind, ret, gets, modify, raise, when, spotify,
    result_of, state_of, calls_of in *.

Lemma bind_ok {A B} (m : M A) (k : A -> M B) s a s1 o1 :
  m s = (Ok a, s1, o1) ->
  bind m k s = (let '(r, s2, o2) := k a s1 in (r, s2, o1 ++ o2)).
Proof. intros H. unfold bind. rewrite H. reflexivity. Qed.

Lemma bind_pure {A B} (m : M A) (k : A -> M B) s a :
  m s = (Ok a, s, []) -> bind m k s = k a s.
Proof.
  intros H. rewrite (bind_ok _ _ _ _ _ _ H).
  destruct (k a s) as [[r s2] o2]. reflexivity.
Qed.

Lemma bind_raise {A B} (m : M A) (k : A -> M B) s e s1 o1 :
  m s = (Raise e, s1, o1) -> bind m k s = (Raise e, s1, o1).
Proof. intros H. unfold bind. rewrite H. reflexivity. Qed.

(** Projections of updated states. *)
Ltac simpl_state :=
  cbn
    [set_scrubbing_active set_scrub_start_x set_scrub_start_progress
     set_last_scrub_time set_scrub_end_time set_last_volume_gesture
     set_last_volume_time set_volume_gesture_armed set_last_play_pause_time
     set_play_pause_armed set_last_swipe_time set_last_swipe_direction
     set_stable_finger_count set_finger_count_start_time set_hand_first_seen_time
     set_hand_was_visible set_cached_track_info set_last_track_fetch_time
     set_position_history set_last_gesture_time set_frame_count
     set_last_hand_landmarks
     spotify_enabled scrubbing_active scrub_start_x
     scrub_start_progress last_scrub_time scrub_end_time
     last_volume_gesture last_volume_time volume_gesture_armed
     last_play_pause_time play_pause_armed last_swipe_time
     last_swipe_direction stable_finger_count finger_count_start_time
     hand_first_seen_time hand_was_visible cached_track_info
     last_track_fetch_time position_history last_gesture_time
     frame_count last_hand_landmarks
     result_of state_of calls_of fst snd app] in *.

(** Unfolding of the model, leaving integer arithmetic folded. *)
Ltac unfold_methods :=
  cbv beta iota zeta delta
    [bind ret gets modify raise when spotify result_of state_of calls_of
     arbitrate swipe_arbitration play_pause_arbitration volume_arbitration
     handle_gestures get_stable_finger_count get_track_info_cached
     can_trigger_gesture mark_gesture_triggered
     post_scrub_cooldown swipe_same_direction_cooldown
     swipe_opposite_direction_cooldown swipe_to_other_action_cooldown
     stability_threshold hand_appearance_cooldown track_fetch_interval
     cooldown_seconds fst snd app
     set_scrubbing_active set_scrub_start_x set_scrub_start_progress
     set_last_scrub_time set_scrub_end_time set_last_volume_gesture
     set_last_volume_time set_volume_gesture_armed set_last_play_pause_time
     set_play_pause_armed set_last_swipe_time set_last_swipe_direction
     set_stable_finger_count set_finger_count_start_time set_hand_first_seen_time
     set_hand_was_visible set_cached_track_info set_last_track_fetch_time
     set_position_history set_last_gesture_time set_frame_count
     set_last_hand_landmarks
     spotify_enabled scrubbing_active scrub_start_x
     scrub_start_progress last_scrub_time scrub_end_time
     last_volume_gesture last_volume_time volume_gesture_armed
     last_play_pause_time play_pause_armed last_swipe_time
     last_swipe_direction stable_finger_count finger_count_start_time
     hand_first_seen_time hand_was_visible cached_track_info
     last_track_fetch_time position_history last_gesture_time
     frame_count last_hand_landmarks].

(** The fields of a state under fixed names. *)
Ltac destruct_state s :=
  destruct s as [s_enabled s_active s_start_x s_start_progress s_last_scrub
                 s_scrub_end s_volume_gesture s_volume_time s_volume_armed
                 s_play_pause_time s_play_pause_armed s_swipe_time
                 s_swipe_direction s_candidate s_candidate_start s_first_seen
                 s_visible s_cached s_fetch_time s_history s_gesture_time
                 s_count s_last_hands].

(** Decide the tests of the goal one after the other. *)
Ltac split_tests :=
  repeat match goal with
    | |- context [match ?x with _ => _ end] => is_var x; destruct x
    | |- context [if ?b then _ else _] => destruct b eqn:?
    end.

(** Break the boolean facts that the tests leave behind. *)
Ltac bool_hyps :=
  repeat match goal with
    | H : _ && _ = true |- _ => apply andb_prop in H; destruct H
    | H : _ || _ = false |- _ => apply orb_false_elim in H; destruct H
    | H : negb _ = true |- _ => apply negb_true_iff in H
    | H : negb _ = false |- _ => apply negb_false_iff in H
    | H : _ && _ = false |- _ => apply andb_false_iff in H; destruct H
    | H : _ || _ = true |- _ => apply orb_prop in H; destruct H
    | H : _ /\ _ |- _ => destruct H
    end.

Ltac break_hyps :=
  repeat match goal with
    | H : exists _, _ |- _ => destruct H
    | H : _ /\ _ |- _ => destruct H
    end.

Ltac settle :=
  bool_hyps; break_hyps; subst;
  intuition (try discriminate; try congruence; try lia).

(** Close a case that contradicts what is known. *)
Ltac prune :=
  exfalso; break_hyps;
  solve [ congruence | lia
        | match goal with
          | H : ~ _ |- _ =>
              apply H; repeat split; solve [assumption | congruence | lia]
          end ].

Ltac finish :=
  bool_hyps; subst;
  solve [ reflexivity | assumption | discriminate | congruence | lia
        | exfalso; lia | exfalso; congruence ].

(** ** The swipe detector *)

Lemma wrists_of_history (history : list Landmarks) (s : State) :
  Forall (fun pos => pos <> []) history ->
  mapM (fun pos => index pos 0) history s = (Ok (map wrist_of history), s, []).
Proof.
  induction 1 as [|pos rest Hpos _ IH]; [reflexivity|].
  cbn [mapM map]. destruct pos as [|p pos]; [congruence|].
  rewrite (bind_pure _ _ s p) by reflexivity.
  rewrite (bind_pure _ _ s _ IH). reflexivity.
Qed.

Lemma index_last_map_wrist (history : list Landmarks) (s : State) :
  history <> [] ->
  index_last (map wrist_of history) s = (Ok (newest_wrist history), s, []).
Proof.
  intros Hne. destruct (exists_last Hne) as (front & pos & ->).
  unfold index_last, newest_wrist.
  rewrite map_app, rev_app_distr, last_last. reflexivity.
Qed.

(** What the detector returns and does to the history, when every entry
    of the history has a wrist. *)
Lemma detect_swipe_run (landmarks : Landmarks) (s : State)
    (Hwrists : Forall (fun pos => pos <> []) (position_history s)) :
  let history := position_history s in
  exists r : option Gesture,
    detect_swipe landmarks s
      = (Ok r, match r with Some _ => set_position_history [] s | None => s end, [])
    /\ ((length history < 8)%nat -> r = None)
    /\ ((8 <= length history)%nat ->
        (r <> None <-> swipe_shaped history)
        /\ (r = Some swipe_right <-> swipe_shaped history /\ swipe_dx history > 0)
        /\ (r = Some swipe_left <-> swipe_shaped history /\ swipe_dx history <= 0)
        /\ r <> Some pinch).
Proof.
  intros history. unfold detect_swipe.
  rewrite (bind_pure _ _ s (position_history s)) by reflexivity.
  fold history.
  destruct (Nat.ltb_spec (length history) 8) as [Hshort|Hlong].
  - exists None. split; [reflexivity|]. split; [reflexivity|lia].
  - assert (Hne : history <> []) by (intros E; rewrite E in Hlong; cbn in Hlong; lia).
    rewrite (bind_pure _ _ s _ (wrists_of_history history s Hwrists)).
    rewrite (bind_pure _ _ s (oldest_wrist history)).
    2:{ destruct history; [congruence|reflexivity]. }
    rewrite (bind_pure _ _ s _ (index_last_map_wrist history s Hne)).
    cbv zeta. fold (swipe_dx history). fold (swipe_dy history).
    unfold swipe_shaped.
    destruct (Z.gtb_spec (Z.abs (swipe_dx history)) 120) as [Hh|Hh];
      destruct (Z.ltb_spec (swipe_dy history) 80) as [Hv|Hv]; cbn [andb];
      try (exists None; split; [reflexivity|]; split; [reflexivity|];
           intros _; repeat split; try congruence; lia).
    destruct (Z.gtb_spec (2 * Z.abs (swipe_dx history)) (3 * swipe_dy history))
      as [Hd|Hd];
      [|exists None; split; [reflexivity|]; split; [reflexivity|];
        intros _; repeat split; try congruence; lia].
    destruct (Z.gtb_spec (swipe_dx history) 0) as [Hpos|Hneg].
    + exists (Some swipe_right). split.
      { reflexivity. }
      split; [lia|]. intros _. repeat split; try congruence; try lia.
    + exists (Some swipe_left). split.
      { reflexivity. }
      split; [lia|]. intros _. repeat split; try congruence; try lia.
Qed.

(** C7. With fewer than 8 entries in the history the detector returns no
    classification.  With 8 or more it compares the newest and the oldest
    wrist: it reports a swipe exactly when |dx| > 120, dy < 80 and
    |dx| > 1.5 dy (written 2 |dx| > 3 dy), [swipe_right] when dx > 0 and
    [swipe_left] otherwise; the history is emptied exactly when a swipe is
    reported and is otherwise left as it was.  No backend call is made.
    The entries of the history are landmark lists with a wrist. *)
Theorem detect_swipe_classifies (landmarks : Landmarks) (s : State)
    (Hwrists : Forall (fun pos => pos <> []) (position_history s)) :
  let history := position_history s in
  exists r : option Gesture,
    detect_swipe landmarks s
      = (Ok r, match r with Some _ => set_position_history [] s | None => s end, [])
    /\ ((length history < 8)%nat -> r = None)
    /\ ((8 <= length history)%nat ->
        (r <> None <-> swipe_shaped history)
        /\ (r = Some swipe_right <-> swipe_shaped history /\ swipe_dx history > 0)
        /\ (r = Some swipe_left <-> swipe_shaped history /\ swipe_dx history <= 0)
        /\ r <> Some pinch).
Proof. exact (detect_swipe_run landmarks s Hwrists). Qed.

Lemma detect_swipe_classifies_rightward :
  detect_swipe (fist 260 200) (set_history_of rightward_history)
  = (Ok (Some swipe_right), set_position_history [] (set_history_of rightward_history), []).
Proof.
  assert (Hwrists : Forall (fun pos : Landmarks => pos <> [])
                      (position_history (set_history_of rightward_history))).
  { cbn. repeat constructor; discriminate. }
  destruct (detect_swipe_classifies (fist 260 200) _ Hwrists)
    as (r & Hrun & _ & Hlong).
  assert (Hr : r = Some swipe_right).
  { apply Hlong; [cbn; lia|]. vm_compute. repeat split; congruence. }
  rewrite Hrun, Hr. reflexivity.
Defined.

(** ** The stability filter *)

Lemma stable_changed (now finger_count : Z) (s : State) :
  stable_finger_count s <> Some finger_count ->
  get_stable_finger_count now finger_count s
  = (Ok None,
     set_finger_count_start_time now
       (set_stable_finger_count (Some finger_count) s), []).
Proof.
  intros Hne. unfold get_stable_finger_count. unfold_monad.
  destruct (stable_finger_count s) as [c|]; [|reflexivity].
  destruct (Z.eqb_spec finger_count c) as [->|_]; [congruence|reflexivity].
Qed.

Lemma stable_same (now finger_count : Z) (s : State) :
  stable_finger_count s = Some finger_count ->
  get_stable_finger_count now finger_count s
  = (Ok (if now - finger_count_start_time s >=? stability_threshold
         then Some finger_count else None), s, []).
Proof.
  intros He. unfold get_stable_finger_count. unfold_monad.
  rewrite He, Z.eqb_refl. cbn.
  destruct (now - finger_count_start_time s >=? stability_threshold); reflexivity.
Qed.

Lemma evaluations_same (finger_count : Z) (times : list Z) (s : State) :
  stable_finger_count s = Some finger_count ->
  evaluations finger_count times s
  = (Ok (map (fun t => if t - finger_count_start_time s >=? stability_threshold
                       then Some finger_count else None) times), s, []).
Proof.
  intros He. induction times as [|t times IH]; [reflexivity|].
  unfold evaluations in *. cbn [mapM map].
  rewrite (bind_pure _ _ s _ (stable_same t finger_count s He)).
  rewrite (bind_pure _ _ s _ IH). reflexivity.
Qed.

(** C9. An evaluation of the filter reports a count as stable only if that
    count is the raw count of the call, was already the candidate, and the
    candidate is at least 0.3 s old; a raw count that differs from the
    candidate becomes the candidate with the current time as its start, and
    the call reports nothing; a raw count equal to the candidate is reported
    exactly when 0.3 s have passed, and the filter keeps its state.
    Hence, from the evaluation at [t0] that makes [finger_count] the
    candidate, the later evaluations of the same count report it exactly
    at the readings [t] with [t - t0 >= 300]: at the first such one and
    never before. *)
Theorem stability_filter (now finger_count : Z) (s : State) :
  (forall c s' calls,
      get_stable_finger_count now finger_count s = (Ok (Some c), s', calls) ->
      c = finger_count /\ stable_finger_count s = Some finger_count /\
      now - finger_count_start_time s >= 300 /\ s' = s /\ calls = [])
  /\ (stable_finger_count s <> Some finger_count ->
      result_of (get_stable_finger_count now finger_count s) = Ok None /\
      stable_finger_count (state_of (get_stable_finger_count now finger_count s))
        = Some finger_count /\
      finger_count_start_time (state_of (get_stable_finger_count now finger_count s))
        = now)
  /\ (stable_finger_count s = Some finger_count ->
      get_stable_finger_count now finger_count s
      = (Ok (if now - finger_count_start_time s >=? 300
             then Some finger_count else None), s, []))
  /\ (forall later : list Z,
      stable_finger_count s <> Some finger_count ->
      result_of (evaluations finger_count (now :: later) s)
      = Ok (None :: map (fun t => if t - now >=? 300 then Some finger_count
                                  else None) later)).
Proof.
  split; [|split; [|split]].
  - intros c s' calls Hrun.
    destruct (stable_finger_count s) as [c0|] eqn:Hc.
    + destruct (Z.eq_dec c0 finger_count) as [->|Hne].
      * rewrite (stable_same _ _ _ Hc) in Hrun. unfold stability_threshold in Hrun.
        destruct (Z.geb_spec (now - finger_count_start_time s) 300);
          inversion Hrun; subst. repeat split; try reflexivity; lia.
      * rewrite stable_changed in Hrun by congruence. discriminate.
    + rewrite stable_changed in Hrun by congruence. discriminate.
  - intros Hne. rewrite (stable_changed _ _ _ Hne). cbn. repeat split.
  - intros He. apply (stable_same _ _ _ He).
  - intros later Hne. unfold evaluations. cbn [mapM].
    rewrite (bind_ok _ _ _ _ _ _ (stable_changed now finger_count s Hne)).
    pose proof (evaluations_same finger_count later
                  (set_finger_count_start_time now
                     (set_stable_finger_count (Some finger_count) s))
                  eq_refl) as Hrest.
    unfold evaluations in Hrest.
    rewrite (bind_pure _ _ _ _ Hrest). reflexivity.
Qed.

(** ** Arbitration, block by block *)

Lemma bind_outcome {A B} (m : M A) (k : A -> M B) s a s1 o1 :
  m s = (Ok a, s1, o1) ->
  bind m k s
  = (result_of (k a s1), state_of (k a s1), o1 ++ calls_of (k a s1)).
Proof.
  intros H. unfold bind. rewrite H.
  destruct (k a s1) as [[r s2] o2]. reflexivity.
Qed.

(** Lines 77-103. *)
Lemma swipe_arbitration_cases (now : Z) (gesture : option Gesture) (s : State) :
  spotify_enabled s = true ->
  (swipe_arbitration now gesture s = (Ok tt, s, [])
   /\ forall d, gesture = Some (swipe_gesture d) ->
                now - last_swipe_time s <= swipe_cooldown d s)
  \/ (exists d,
        gesture = Some (swipe_gesture d)
        /\ now - last_swipe_time s > swipe_cooldown d s
        /\ swipe_arbitration now gesture s
           = (Ok tt,
              set_last_swipe_direction (Some d) (set_last_swipe_time now s),
              [swipe_command d])).
Proof.
  intros Henabled. unfold swipe_arbitration, swipe_cooldown.
  destruct gesture as [[| |]|].
  - unfold_monad. cbn [fst snd app].
    destruct (Z.gtb_spec (now - last_swipe_time s)
                match last_swipe_direction s with
                | Some dir_left => swipe_same_direction_cooldown
                | Some dir_right => swipe_opposite_direction_cooldown
                | None => 0
                end) as [Hgt|Hle].
    + right. exists dir_left. cbn [swipe_gesture swipe_command].
      split; [reflexivity|]. split.
      * destruct (last_swipe_direction s) as [[|]|]; exact (Z.lt_gt _ _ Hgt).
      * cbn [spotify_enabled set_last_swipe_time]. rewrite Henabled. reflexivity.
    + left. split; [reflexivity|]. intros [|] Hd; [|discriminate].
      destruct (last_swipe_direction s) as [[|]|]; exact Hle.
  - unfold_monad. cbn [fst snd app].
    destruct (Z.gtb_spec (now - last_swipe_time s)
                match last_swipe_direction s with
                | Some dir_left => swipe_opposite_direction_cooldown
                | Some dir_right => swipe_same_direction_cooldown
                | None => 0
                end) as [Hgt|Hle].
    + right. exists dir_right. cbn [swipe_gesture swipe_command].
      split; [reflexivity|]. split.
      * destruct (last_swipe_direction s) as [[|]|]; exact (Z.lt_gt _ _ Hgt).
      * cbn [spotify_enabled set_last_swipe_time]. rewrite Henabled. reflexivity.
    + left. split; [reflexivity|]. intros [|] Hd; [discriminate|].
      destruct (last_swipe_direction s) as [[|]|]; exact Hle.
  - left. split; [reflexivity|]. intros [|]; discriminate.
  - left. split; [reflexivity|]. intros [|]; discriminate.
Qed.

(** Lines 105-116. *)
Lemma play_pause_arbitration_cases (now : Z) (stable_count : option Z) (s : State) :
  spotify_enabled s = true ->
  (play_pause_fires now stable_count s
   /\ play_pause_arbitration now stable_count s
      = (Ok tt, set_play_pause_armed false (set_last_play_pause_time now s),
         [play_pause]))
  \/ (play_pause_rearms now stable_count s
      /\ play_pause_arbitration now stable_count s
         = (Ok tt, set_play_pause_armed true s, []))
  \/ (~ play_pause_fires now stable_count s
      /\ ~ play_pause_rearms now stable_count s
      /\ play_pause_arbitration now stable_count s = (Ok tt, s, [])).
Proof.
  intros Henabled.
  unfold play_pause_arbitration, play_pause_fires, play_pause_rearms.
  unfold_monad. unfold swipe_to_other_action_cooldown. cbn [fst snd app].
  destruct stable_count as [n|].
  - destruct (Z.eq_dec n 1) as [->|Hn].
    + destruct (play_pause_armed s && negb (now - last_play_pause_time s <? 1500)
                && negb (now - last_swipe_time s <? 1000)) eqn:Htest.
      * left. cbn [spotify_enabled set_last_play_pause_time].
        rewrite Henabled. split; [|reflexivity]. repeat split; finish.
      * right; right. split; [|split; [|reflexivity]].
        -- intros (_ & Ha & Hp & Hs). rewrite Ha in Htest. finish.
        -- intros (_ & Hne & _). congruence.
    + destruct n as [|[p|p|]|p]; try congruence;
        (destruct (Z.ltb_spec (now - last_play_pause_time s) 1500) as [Hlt|Hge];
         cbn [negb];
         [ right; right; split; [|split; [|reflexivity]];
           [ intros (Hsc & _); congruence | intros (_ & Hp); lia ]
         | right; left; split; [|reflexivity];
           repeat split; [discriminate | congruence | lia] ]).
  - right; right. split; [|split; [|reflexivity]].
    + intros (Hsc & _). discriminate.
    + intros (Hn & _). congruence.
Qed.
(** Lines 118-140. *)
Lemma volume_arbitration_cases (now : Z) (stable_count : option Z) (s : State) :
  spotify_enabled s = true ->
  (volume_fires now stable_count s 2 up
   /\ volume_arbitration now stable_count s
      = (Ok tt,
         set_volume_gesture_armed false
           (set_last_volume_time now (set_last_volume_gesture (Some up) s)),
         [adjust_volume 10]))
  \/ (volume_fires now stable_count s 3 down
      /\ volume_arbitration now stable_count s
         = (Ok tt,
            set_volume_gesture_armed false
              (set_last_volume_time now (set_last_volume_gesture (Some down) s)),
            [adjust_volume (-10)]))
  \/ (volume_rearms now stable_count s
      /\ volume_arbitration now stable_count s
         = (Ok tt, set_last_volume_gesture None (set_volume_gesture_armed true s),
            []))
  \/ (~ volume_fires now stable_count s 2 up
      /\ ~ volume_fires now stable_count s 3 down
      /\ ~ volume_rearms now stable_count s
      /\ volume_arbitration now stable_count s = (Ok tt, s, [])).
Proof.
  intros Henabled.
  unfold volume_arbitration, volume_fires, volume_rearms.
  unfold_monad. unfold swipe_to_other_action_cooldown. cbn [fst snd app].
  destruct stable_count as [n|].
  2:{ do 3 right. repeat split; try reflexivity.
      - intros (Hsc & _); discriminate.
      - intros (Hsc & _); discriminate.
      - intros (Hn & _); congruence. }
  destruct (Z.eq_dec n 2) as [->|Hn2]; [|destruct (Z.eq_dec n 3) as [->|Hn3]].
  - cbn [Z.eqb Pos.eqb orb negb andb].
    destruct ((now - last_volume_time s <? 1000) || (now - last_swipe_time s <? 1000)) eqn:Hcool.
    { do 3 right. repeat split; try reflexivity.
      - intros (_ & _ & _ & H1 & H2). finish.
      - intros (Hsc & _). discriminate.
      - intros (_ & H2 & _). congruence. }
    destruct (volume_gesture_armed s) eqn:Harmed; cbn [negb].
    2:{ do 3 right. repeat split; try reflexivity.
      - intros (_ & H & _). discriminate.
      - intros (Hsc & _). discriminate.
      - intros (_ & H2 & _). congruence. }
    destruct (last_volume_gesture s) as [[|]|] eqn:Hlast; cbn [negb].
    + do 3 right. repeat split; try reflexivity.
      * intros (_ & _ & H & _). congruence.
      * intros (Hsc & _). discriminate.
      * intros (_ & H2 & _). congruence.
    + left. cbn [spotify_enabled set_last_volume_gesture set_last_volume_time].
      rewrite Henabled. split; [|reflexivity]. repeat split; try finish.
    + left. rewrite Henabled. split; [|reflexivity]. repeat split; try finish.
  - cbn [Z.eqb Pos.eqb orb negb andb].
    destruct ((now - last_volume_time s <? 1000) || (now - last_swipe_time s <? 1000)) eqn:Hcool.
    { do 3 right. repeat split; try reflexivity.
      - intros (Hsc & _). discriminate.
      - intros (_ & _ & _ & H1 & H2). finish.
      - intros (_ & _ & H3 & _). congruence. }
    destruct (volume_gesture_armed s) eqn:Harmed; cbn [negb].
    2:{ do 3 right. repeat split; try reflexivity.
      - intros (Hsc & _). discriminate.
      - intros (_ & H & _). discriminate.
      - intros (_ & _ & H3 & _). congruence. }
    destruct (last_volume_gesture s) as [[|]|] eqn:Hlast; cbn [negb].
    + right; left. rewrite Henabled. split; [|reflexivity]. repeat split; try finish.
    + do 3 right. repeat split; try reflexivity.
      * intros (Hsc & _). discriminate.
      * intros (_ & _ & H & _). congruence.
      * intros (_ & _ & H3 & _). congruence.
    + right; left. rewrite Henabled. split; [|reflexivity]. repeat split; try finish.
  - rewrite (proj2 (Z.eqb_neq n 2) Hn2), (proj2 (Z.eqb_neq n 3) Hn3).
    cbn [orb negb].
    destruct (Z.ltb_spec (now - last_volume_time s) 1000) as [Hlt|Hge]; cbn [negb].
    + do 3 right. repeat split; try reflexivity.
      * intros (Hsc & _). congruence.
      * intros (Hsc & _). congruence.
      * intros (_ & _ & _ & H). lia.
    + right; right; left. split; [|reflexivity].
      repeat split; [discriminate | congruence | congruence | lia].
Qed.

Lemma arbitrate_run now gesture stable_count s s1 o1 s2 o2 s3 o3 :
  swipe_arbitration now gesture s = (Ok tt, s1, o1) ->
  play_pause_arbitration now stable_count s1 = (Ok tt, s2, o2) ->
  volume_arbitration now stable_count s2 = (Ok tt, s3, o3) ->
  arbitrate now gesture stable_count s = (Ok tt, s3, o1 ++ o2 ++ o3).
Proof.
  intros H1 H2 H3. unfold arbitrate.
  rewrite (bind_outcome _ _ _ _ _ _ H1), (bind_outcome _ _ _ _ _ _ H2), H3.
  reflexivity.
Qed.

(** The outcomes of [arbitrate] in a state with a backend: two for the
    swipe, three for play/pause and four for the volume. *)
Ltac arbitrate_cases now gesture stable_count s Henabled :=
  let Hsw := fresh "Hswipe" in
  let Hpp := fresh "Hplay" in
  let Hvol := fresh "Hvolume" in
  let d := fresh "d" in
  destruct (swipe_arbitration_cases now gesture s Henabled)
    as [(Hsw & ?) | (d & ? & ? & Hsw)];
  match type of Hsw with
  | _ = (_, ?s1, _) =>
      destruct (play_pause_arbitration_cases now stable_count s1 Henabled)
        as [(? & Hpp) | [(? & Hpp) | (? & ? & Hpp)]];
      match type of Hpp with
      | _ = (_, ?s2, _) =>
          destruct (volume_arbitration_cases now stable_count s2 Henabled)
            as [(? & Hvol) | [(? & Hvol) | [(? & Hvol) | (? & ? & ? & Hvol)]]];
          rewrite ?(arbitrate_run _ _ _ _ _ _ _ _ _ _ Hsw Hpp Hvol);
          rewrite ?Hsw;
          clear Hsw Hpp Hvol
      end
  end.

Ltac unfold_conditions :=
  unfold play_pause_fires, play_pause_rearms, volume_fires, volume_rearms in *;
  simpl_state.

(** [arbitrate] returns, and leaves the backend in place. *)
Lemma arbitrate_returns (now : Z) (gesture : option Gesture)
    (stable_count : option Z) (s : State) :
  spotify_enabled s = true ->
  result_of (arbitrate now gesture stable_count s) = Ok tt
  /\ spotify_enabled (state_of (arbitrate now gesture stable_count s)) = true.
Proof.
  intros Henabled. arbitrate_cases now gesture stable_count s Henabled;
    simpl_state; auto.
Qed.

Lemma stable_samples_cons (t c : Z) (rest : list (Z * Z)) (s : State) :
  spotify_enabled s = true ->
  calls_of (stable_samples ((t, c) :: rest) s)
  = calls_of (arbitrate t None (Some c) s)
    ++ calls_of (stable_samples rest (state_of (arbitrate t None (Some c) s))).
Proof.
  intros Henabled.
  destruct (arbitrate_returns t None (Some c) s Henabled) as (Hok & _).
  destruct (arbitrate t None (Some c) s) as [[r s1] o1] eqn:Hrun.
  cbn in Hok. subst r.
  unfold stable_samples. cbn [mapM fst snd].
  rewrite (bind_outcome _ _ _ _ _ _ Hrun).
  unfold bind, ret, calls_of, state_of. cbn [fst snd].
  destruct (mapM _ rest s1) as [[[bs|e] s2] o2]; cbn [snd];
    rewrite ?app_nil_r; reflexivity.
Qed.

(** One sample without a swipe, as far as play/pause goes. *)
Lemma stable_sample_play_pause (t c : Z) (rest : list (Z * Z)) (s : State) :
  spotify_enabled s = true ->
  exists s',
    spotify_enabled s' = true /\ last_swipe_time s' = last_swipe_time s
    /\ ((play_pause_fires t (Some c) s
         /\ filter is_play_pause (calls_of (stable_samples ((t, c) :: rest) s))
            = play_pause :: filter is_play_pause (calls_of (stable_samples rest s'))
         /\ play_pause_armed s' = false /\ last_play_pause_time s' = t)
        \/ (play_pause_rearms t (Some c) s
            /\ filter is_play_pause (calls_of (stable_samples ((t, c) :: rest) s))
               = filter is_play_pause (calls_of (stable_samples rest s'))
            /\ play_pause_armed s' = true
            /\ last_play_pause_time s' = last_play_pause_time s)
        \/ (~ play_pause_fires t (Some c) s /\ ~ play_pause_rearms t (Some c) s
            /\ filter is_play_pause (calls_of (stable_samples ((t, c) :: rest) s))
               = filter is_play_pause (calls_of (stable_samples rest s'))
            /\ play_pause_armed s' = play_pause_armed s
            /\ last_play_pause_time s' = last_play_pause_time s)).
Proof.
  intros Henabled.
  exists (state_of (arbitrate t None (Some c) s)).
  rewrite (stable_samples_cons t c rest s Henabled), filter_app.
  arbitrate_cases t (@None Gesture) (Some c) s Henabled;
    try (destruct d; discriminate);
    simpl_state; cbn [filter is_play_pause app];
    (split; [exact Henabled|]); (split; [reflexivity|]).
  all: unfold_conditions.
  all: first [ left; solve [intuition auto]
             | right; left; solve [intuition auto]
             | right; right; solve [intuition auto] ].
Qed.

(** One sample without a swipe, as far as the volume goes. *)
Lemma stable_sample_volume (t c : Z) (rest : list (Z * Z)) (s : State) :
  spotify_enabled s = true ->
  exists s',
    spotify_enabled s' = true /\ last_swipe_time s' = last_swipe_time s
    /\ ((volume_fires t (Some c) s 2 up
         /\ filter is_volume (calls_of (stable_samples ((t, c) :: rest) s))
            = adjust_volume 10 :: filter is_volume (calls_of (stable_samples rest s'))
         /\ volume_gesture_armed s' = false
         /\ last_volume_gesture s' = Some up /\ last_volume_time s' = t)
        \/ (volume_fires t (Some c) s 3 down
            /\ filter is_volume (calls_of (stable_samples ((t, c) :: rest) s))
               = adjust_volume (-10)
                 :: filter is_volume (calls_of (stable_samples rest s'))
            /\ volume_gesture_armed s' = false
            /\ last_volume_gesture s' = Some down /\ last_volume_time s' = t)
        \/ (volume_rearms t (Some c) s
            /\ filter is_volume (calls_of (stable_samples ((t, c) :: rest) s))
               = filter is_volume (calls_of (stable_samples rest s'))
            /\ volume_gesture_armed s' = true
            /\ last_volume_gesture s' = None
            /\ last_volume_time s' = last_volume_time s)
        \/ (~ volume_fires t (Some c) s 2 up /\ ~ volume_fires t (Some c) s 3 down
            /\ ~ volume_rearms t (Some c) s
            /\ filter is_volume (calls_of (stable_samples ((t, c) :: rest) s))
               = filter is_volume (calls_of (stable_samples rest s'))
            /\ volume_gesture_armed s' = volume_gesture_armed s
            /\ last_volume_gesture s' = last_volume_gesture s
            /\ last_volume_time s' = last_volume_time s)).
Proof.
  intros Henabled.
  exists (state_of (arbitrate t None (Some c) s)).
  rewrite (stable_samples_cons t c rest s Henabled), filter_app.
  arbitrate_cases t (@None Gesture) (Some c) s Henabled;
    try (destruct d; discriminate);
    simpl_state; cbn [filter is_volume app];
    (split; [exact Henabled|]); (split; [reflexivity|]).
  all: unfold_conditions.
  all: first [ left; solve [intuition auto]
             | right; left; solve [intuition auto]
             | right; right; left; solve [intuition auto]
             | right; right; right; solve [intuition auto] ].
Qed.

(** ** Play/pause *)

Lemma play_pause_fires_iff (s : State) (now : Z)
    (gesture : option Gesture) (stable_count : option Z) :
  spotify_enabled s = true ->
  In play_pause (calls_of (arbitrate now gesture stable_count s)) <->
  play_pause_fires now stable_count (state_of (swipe_arbitration now gesture s)).
Proof.
  intros Henabled.
  arbitrate_cases now gesture stable_count s Henabled;
    unfold_conditions; try (destruct d; cbn [swipe_command In]); cbn [In];
    settle.
Qed.

(** Step of a sequence of samples on which play/pause can be decided. *)
Ltac play_pause_step t c rest s Henabled s' Henabled' :=
  let Hsw := fresh "Hswiped" in
  let Hf := fresh "Hcalls" in
  destruct (stable_sample_play_pause t c rest s Henabled)
    as (s' & Henabled' & Hsw
        & [(? & Hf & ? & ?) | [(? & Hf & ? & ?) | (? & ? & Hf & ? & ?)]]);
  unfold play_pause_fires, play_pause_rearms in *;
  try solve [prune];
  rewrite Hf; clear Hf.

Lemma play_pause_two_streaks (s : State) (t0 t1 t2 t3 t4 t5 t6 : Z) :
  spotify_enabled s = true ->
  play_pause_armed s = true ->
  t0 - last_play_pause_time s >= 1500 ->
  t0 - last_swipe_time s >= 1000 ->
  t1 - t0 >= 1500 -> t2 - t1 >= 1500 -> t3 - t2 >= 1500 ->
  t4 - t3 >= 1500 -> t5 - t4 >= 1500 -> t6 - t5 >= 1500 ->
  filter is_play_pause
    (calls_of (stable_samples
                 [(t0, 1); (t1, 1); (t2, 1); (t3, 2); (t4, 2); (t5, 1); (t6, 1)] s))
  = [play_pause; play_pause].
Proof.
  intros Henabled Harmed Hpp Hsw H1 H2 H3 H4 H5 H6.
  play_pause_step t0 1 [(t1, 1); (t2, 1); (t3, 2); (t4, 2); (t5, 1); (t6, 1)]
    s Henabled s0 He0.
  play_pause_step t1 1 [(t2, 1); (t3, 2); (t4, 2); (t5, 1); (t6, 1)] s0 He0 s1 He1.
  play_pause_step t2 1 [(t3, 2); (t4, 2); (t5, 1); (t6, 1)] s1 He1 s2 He2.
  play_pause_step t3 2 [(t4, 2); (t5, 1); (t6, 1)] s2 He2 s3 He3.
  play_pause_step t4 2 [(t5, 1); (t6, 1)] s3 He3 s4 He4.
  play_pause_step t5 1 [(t6, 1)] s4 He4 s5 He5.
  play_pause_step t6 1 (@nil (Z * Z)) s5 He5 s6 He6.
  reflexivity.
Qed.

(** C8. In a call of the arbitration with a backend, the toggle is sent
    exactly when the stable count is 1, the action is armed, the last toggle
    is at least 1.5 s old and the last swipe, a swipe of this very call
    included, is at least 1.0 s old.  Sending it disarms the action and
    stamps the time.  A disarmed action is armed again by a call exactly
    when the call has a stable count, that count is not 1, and the 1.5 s
    have passed.  So the stable counts 1,1,1,2,2,1,1, sampled 1.5 s apart or
    more with no swipe, starting armed and out of both windows, send the
    toggle exactly twice. *)
Theorem play_pause_arbitrated (s : State) (now : Z)
    (gesture : option Gesture) (stable_count : option Z)
    (Henabled : spotify_enabled s = true) :
  let swiped := state_of (swipe_arbitration now gesture s) in
  let after := arbitrate now gesture stable_count s in
  (In play_pause (calls_of after) <->
   stable_count = Some 1 /\ play_pause_armed s = true /\
   now - last_play_pause_time s >= 1500 /\
   now - last_swipe_time swiped >= 1000)
  /\ (last_swipe_time swiped = last_swipe_time s \/ last_swipe_time swiped = now)
  /\ (gesture = None -> last_swipe_time swiped = last_swipe_time s)
  /\ (In play_pause (calls_of after) ->
      play_pause_armed (state_of after) = false /\
      last_play_pause_time (state_of after) = now)
  /\ (play_pause_armed s = false ->
      (play_pause_armed (state_of after) = true <->
       stable_count <> None /\ stable_count <> Some 1 /\
       now - last_play_pause_time s >= 1500))
  /\ (forall t0 t1 t2 t3 t4 t5 t6 : Z,
      play_pause_armed s = true ->
      t0 - last_play_pause_time s >= 1500 ->
      t0 - last_swipe_time s >= 1000 ->
      t1 - t0 >= 1500 -> t2 - t1 >= 1500 -> t3 - t2 >= 1500 ->
      t4 - t3 >= 1500 -> t5 - t4 >= 1500 -> t6 - t5 >= 1500 ->
      length (filter is_play_pause
                (calls_of (stable_samples
                             [(t0, 1); (t1, 1); (t2, 1); (t3, 2); (t4, 2);
                              (t5, 1); (t6, 1)] s))) = 2%nat).
Proof.
  intros swiped after. subst swiped after.
  split; [|split; [|split; [|split; [|split]]]].
  - rewrite (play_pause_fires_iff s now gesture stable_count Henabled).
    unfold play_pause_fires.
    destruct (swipe_arbitration_cases now gesture s Henabled)
      as [(Hsw & _) | (d & _ & _ & Hsw)]; rewrite Hsw; simpl_state; tauto.
  - destruct (swipe_arbitration_cases now gesture s Henabled)
      as [(Hsw & _) | (d & _ & _ & Hsw)]; rewrite Hsw; simpl_state; auto.
  - intros ->. reflexivity.
  - arbitrate_cases now gesture stable_count s Henabled;
      unfold_conditions; try (destruct d; cbn [swipe_command In]); cbn [In];
      settle.
  - intros Hdisarmed.
    arbitrate_cases now gesture stable_count s Henabled;
      unfold_conditions; settle.
  - intros t0 t1 t2 t3 t4 t5 t6 Harmed Hpp Hsw H1 H2 H3 H4 H5 H6.
    rewrite (play_pause_two_streaks s t0 t1 t2 t3 t4 t5 t6); auto.
Qed.

Lemma play_pause_arbitrated_from_start :
  length (filter is_play_pause
            (calls_of (stable_samples
                         [(2000, 1); (3500, 1); (5000, 1); (6500, 2);
                          (8000, 2); (9500, 1); (11000, 1)] (init true))))
  = 2%nat.
Proof.
  apply (play_pause_arbitrated (init true) 2000 None (Some 1) eq_refl);
    cbn; solve [reflexivity | lia].
Defined.

(** ** Volume *)

Ltac volume_step t c rest s Henabled s' Henabled' :=
  let Hsw := fresh "Hswiped" in
  let Hf := fresh "Hcalls" in
  destruct (stable_sample_volume t c rest s Henabled)
    as (s' & Henabled' & Hsw
        & [(? & Hf & ? & ? & ?) | [(? & Hf & ? & ? & ?)
           | [(? & Hf & ? & ? & ?) | (? & ? & ? & Hf & ? & ? & ?)]]]);
  unfold volume_fires, volume_rearms in *;
  try solve [prune];
  rewrite Hf; clear Hf.

(** While the gesture is disarmed, samples of 2 and 3 send nothing and
    leave it disarmed. *)
Lemma volume_disarmed_blocks (samples : list (Z * Z)) (s : State) :
  spotify_enabled s = true ->
  volume_gesture_armed s = false ->
  Forall (fun sample => snd sample = 2 \/ snd sample = 3) samples ->
  filter is_volume (calls_of (stable_samples samples s)) = [].
Proof.
  intros Henabled Hdisarmed Hcounts. revert s Henabled Hdisarmed.
  induction Hcounts as [|[t c] rest Hc _ IH]; intros s Henabled Hdisarmed;
    [reflexivity|].
  cbn [snd] in Hc.
  destruct Hc as [-> | ->].
  - volume_step t 2 rest s Henabled s' Henabled'.
    apply IH; [assumption|congruence].
  - volume_step t 3 rest s Henabled s' Henabled'.
    apply IH; [assumption|congruence].
Qed.

Lemma volume_up_then_blocked (s : State) (t0 t1 t2 t3 t4 : Z) :
  spotify_enabled s = true ->
  volume_gesture_armed s = true ->
  last_volume_gesture s <> Some up ->
  t0 - last_volume_time s >= 1000 ->
  t0 - last_swipe_time s >= 1000 ->
  filter is_volume
    (calls_of (stable_samples [(t0, 2); (t1, 2); (t2, 2); (t3, 3); (t4, 3)] s))
  = [adjust_volume 10].
Proof.
  intros Henabled Harmed Hlast Hvol Hsw.
  volume_step t0 2 [(t1, 2); (t2, 2); (t3, 3); (t4, 3)] s Henabled s0 He0.
  rewrite (volume_disarmed_blocks _ s0 He0); auto.
  repeat (apply Forall_cons; [cbn [snd]; auto|]). apply Forall_nil.
Qed.

(** The raw counts of [two_then_three] reach the arbitration as the stable
    counts 2, 2, 2, 3, 3; the backend receives one +10 and no -10. *)
Lemma volume_opposite_direction_blocked :
  result_of (filter_reports two_then_three (init true))
  = Ok [None; Some 2; Some 2; Some 2; None; Some 3; Some 3]
  /\ calls_of (raw_samples two_then_three (init true)) = [adjust_volume 10]
  /\ ~ In (adjust_volume (-10)) (calls_of (raw_samples two_then_three (init true))).
Proof.
  split; [vm_compute; reflexivity|].
  assert (Hcalls : calls_of (raw_samples two_then_three (init true))
                   = [adjust_volume 10]) by (vm_compute; reflexivity).
  split; [exact Hcalls|]. rewrite Hcalls. cbn [In].
  intros [H|[]]. discriminate.
Qed.

(** C2, amended.  In a call of the arbitration with a backend, +10 is sent
    exactly when the stable count is 2, and -10 exactly when it is 3,
    provided the gesture is armed, the remembered direction differs, the
    last volume command is at least 1.0 s old and so is the last swipe (one
    of this call included); no other volume command is ever sent.  Sending
    disarms the gesture and records direction and time.  A disarmed gesture
    is armed again exactly by a call whose stable count is a value outside
    {2, 3} with the 1.0 s passed, and that call also forgets the direction;
    while disarmed no volume command is sent, the opposite direction
    included.  So the stable counts 2,2,2,3,3, whatever their times, starting
    armed and out of both windows, send +10 once and -10 never. *)
Theorem volume_arbitrated (s : State) (now : Z)
    (gesture : option Gesture) (stable_count : option Z)
    (Henabled : spotify_enabled s = true) :
  let swiped := state_of (swipe_arbitration now gesture s) in
  let after := arbitrate now gesture stable_count s in
  (In (adjust_volume 10) (calls_of after) <->
   stable_count = Some 2 /\ volume_gesture_armed s = true /\
   last_volume_gesture s <> Some up /\
   now - last_volume_time s >= 1000 /\ now - last_swipe_time swiped >= 1000)
  /\ (In (adjust_volume (-10)) (calls_of after) <->
      stable_count = Some 3 /\ volume_gesture_armed s = true /\
      last_volume_gesture s <> Some down /\
      now - last_volume_time s >= 1000 /\ now - last_swipe_time swiped >= 1000)
  /\ (forall delta, In (adjust_volume delta) (calls_of after) ->
      (delta = 10 \/ delta = -10)
      /\ volume_gesture_armed (state_of after) = false
      /\ last_volume_time (state_of after) = now
      /\ last_volume_gesture (state_of after)
         = Some (if delta =? 10 then up else down))
  /\ (volume_gesture_armed s = false ->
      (forall delta, ~ In (adjust_volume delta) (calls_of after))
      /\ (volume_gesture_armed (state_of after) = true <->
          stable_count <> None /\ stable_count <> Some 2 /\
          stable_count <> Some 3 /\ now - last_volume_time s >= 1000)
      /\ (volume_gesture_armed (state_of after) = true ->
          last_volume_gesture (state_of after) = None))
  /\ (forall t0 t1 t2 t3 t4 : Z,
      volume_gesture_armed s = true ->
      last_volume_gesture s <> Some up ->
      t0 - last_volume_time s >= 1000 ->
      t0 - last_swipe_time s >= 1000 ->
      filter is_volume
        (calls_of (stable_samples
                     [(t0, 2); (t1, 2); (t2, 2); (t3, 3); (t4, 3)] s))
      = [adjust_volume 10]).
Proof.
  intros swiped after. subst swiped after.
  split; [|split; [|split; [|split]]].
  - arbitrate_cases now gesture stable_count s Henabled;
      unfold_conditions; try (destruct d; cbn [swipe_command In]); cbn [In];
      settle.
  - arbitrate_cases now gesture stable_count s Henabled;
      unfold_conditions; try (destruct d; cbn [swipe_command In]); cbn [In];
      settle.
  - intros delta.
    arbitrate_cases now gesture stable_count s Henabled;
      unfold_conditions; try (destruct d; cbn [swipe_command In]); cbn [In];
      intros Hin; repeat destruct Hin as [Hin|Hin];
      try discriminate; try contradiction;
      inversion Hin; subst; cbn; auto.
  - intros Hdisarmed.
    arbitrate_cases now gesture stable_count s Henabled;
      unfold_conditions; try (destruct d; cbn [swipe_command In]); cbn [In];
      settle.
  - intros t0 t1 t2 t3 t4 Harmed Hlast Hvol Hsw.
    apply volume_up_then_blocked; auto.
Qed.

Lemma volume_arbitrated_from_start :
  filter is_volume
    (calls_of (stable_samples
                 [(2000, 2); (3500, 2); (5000, 2); (6500, 3); (8000, 3)]
                 (init true)))
  = [adjust_volume 10].
Proof.
  apply (volume_arbitrated (init true) 2000 None (Some 2) eq_refl);
    cbn; solve [reflexivity | lia | discriminate].
Defined.

(** ** Pure methods *)

Lemma pure_ret {A} (a : A) : pure (ret a).
Proof. exists (Ok a). reflexivity. Qed.

Lemma pure_raise {A} (e : Exception) : pure (@raise A e).
Proof. exists (Raise e). reflexivity. Qed.

Lemma pure_index {A} (l : list A) (i : nat) : pure (index l i).
Proof.
  unfold index. destruct (nth_error l i); [apply pure_ret|apply pure_raise].
Qed.

Lemma pure_bind {A B} (m : M A) (k : A -> M B) :
  pure m -> (forall a, pure (k a)) -> pure (bind m k).
Proof.
  intros [[a|e] Hm] Hk.
  - destruct (Hk a) as [r Hr]. exists r. intros s.
    unfold bind. rewrite Hm, Hr. reflexivity.
  - exists (Raise e). intros s. unfold bind. rewrite Hm. reflexivity.
Qed.

Lemma pure_mapM {A B} (f : A -> M B) (l : list A) :
  (forall a, pure (f a)) -> pure (mapM f l).
Proof.
  intros Hf. induction l as [|a l IH]; cbn [mapM]; [apply pure_ret|].
  apply pure_bind; [apply Hf|]. intros b.
  apply pure_bind; [apply IH|]. intros bs. apply pure_ret.
Qed.

Lemma pure_count_fingers_loop (landmarks : Landmarks) (range : list nat) (n : Z) :
  pure (count_fingers_loop landmarks range n).
Proof.
  revert n. induction range as [|i range IH]; intros n; cbn [count_fingers_loop].
  - apply pure_ret.
  - repeat (apply pure_bind; [apply pure_index|]; intros ?). apply IH.
Qed.

Lemma pure_hand_data (hand_lms : Landmarks) : pure (hand_data hand_lms).
Proof.
  unfold hand_data, count_extended_fingers, detect_pinch.
  apply pure_bind; [apply pure_count_fingers_loop|]. intros n.
  apply pure_bind.
  { repeat (apply pure_bind; [apply pure_index|]; intros ?). apply pure_ret. }
  intros b. apply pure_bind; [apply pure_index|]. intros w. apply pure_ret.
Qed.

Lemma hand_data_features (hand_lms : Landmarks) (s : State) :
  hand_data hand_lms s = (features hand_lms, s, []).
Proof.
  destruct (pure_hand_data hand_lms) as [r Hr].
  unfold features. rewrite (Hr (init true)), Hr. reflexivity.
Qed.

Lemma all_hands_data_features (hand_landmarks : list Landmarks) (s : State) :
  mapM hand_data hand_landmarks s = (all_features hand_landmarks, s, []).
Proof.
  destruct (pure_mapM hand_data hand_landmarks pure_hand_data) as [r Hr].
  unfold all_features. rewrite (Hr (init true)), Hr. reflexivity.
Qed.

(** ** Postconditions *)

Lemma wp_bind {A B} (m : M A) (k : A -> M B) (s : State) Q :
  wp m s (fun r s1 o1 =>
            match r with
            | Ok a => wp (k a) s1 (fun r2 s2 o2 => Q r2 s2 (o1 ++ o2))
            | Raise e => Q (Raise e) s1 o1
            end) ->
  wp (bind m k) s Q.
Proof.
  unfold wp, bind, result_of, state_of, calls_of.
  destruct (m s) as [[[a|e] s1] o1]; cbn [fst snd]; [|auto].
  destruct (k a s1) as [[r2 s2] o2]. cbn [fst snd]. auto.
Qed.

Lemma wp_run {A} (m : M A) (s : State) Q r s' o :
  m s = (r, s', o) -> Q r s' o -> wp m s Q.
Proof. intros H HQ. unfold wp. rewrite H. exact HQ. Qed.

Lemma wp_elim {A} (m : M A) (s : State) Q :
  wp m s Q -> Q (result_of (m s)) (state_of (m s)) (calls_of (m s)).
Proof. auto. Qed.

(** ** The cached track information *)

Lemma get_track_info_cached_cases (t : Z) (reply : option TrackInfo) (s : State) :
  (t - last_track_fetch_time s <= 2000
   /\ get_track_info_cached t reply s = (Ok (cached_track_info s), s, []))
  \/ (t - last_track_fetch_time s > 2000 /\ spotify_enabled s = true
      /\ get_track_info_cached t reply s
         = (Ok reply, set_last_track_fetch_time t (set_cached_track_info reply s),
            [get_current_track_info]))
  \/ (t - last_track_fetch_time s > 2000 /\ spotify_enabled s = false
      /\ get_track_info_cached t reply s = (Raise AttributeError, s, [])).
Proof.
  unfold get_track_info_cached, track_fetch_interval. unfold_monad.
  cbn [fst snd app].
  destruct (Z.gtb_spec (t - last_track_fetch_time s) 2000) as [Hgt|Hle].
  - destruct (spotify_enabled s) eqn:He.
    + right; left. split; [lia|]. split; reflexivity.
    + right; right. split; [lia|]. split; reflexivity.
  - left. split; [lia|reflexivity].
Qed.

(** ** The shape of an iteration *)

Lemma bind_modify {B} (g : State -> State) (k : unit -> M B) (s : State) :
  bind (modify g) k s = k tt (g s).
Proof. unfold bind, modify. destruct (k tt (g s)) as [[r s2] o2]. reflexivity. Qed.

Lemma bind_gets {A B} (f : State -> A) (k : A -> M B) (s : State) :
  bind (gets f) k s = k (f s) s.
Proof. unfold bind, gets. destruct (k (f s) s) as [[r s2] o2]. reflexivity. Qed.

Lemma bind_ret {A B} (a : A) (k : A -> M B) (s : State) :
  bind (ret a) k s = k a s.
Proof. unfold bind, ret. destruct (k a s) as [[r s2] o2]. reflexivity. Qed.

Lemma bind_bind {A B C} (m : M A) (k : A -> M B) (h : B -> M C) (s : State) :
  bind (bind m k) h s = bind m (fun a => bind (k a) h) s.
Proof.
  unfold bind. destruct (m s) as [[[a|e] s1] o1]; [|reflexivity].
  destruct (k a s1) as [[[b|e] s2] o2]; [|reflexivity].
  destruct (h b s2) as [[r s3] o3]. rewrite app_assoc. reflexivity.
Qed.

Lemma bind_quiet {A B} (m : M A) (k : A -> M B) (s : State) r :
  m s = (r, s, []) ->
  bind m k s = match r with
               | Ok a => k a s
               | Raise e => (Raise e, s, [])
               end.
Proof.
  intros H. unfold bind. rewrite H. destruct r as [a|e]; [|reflexivity].
  destruct (k a s) as [[r2 s2] o2]. reflexivity.
Qed.

Lemma outcome_eta {A} (x : Result A * State * list Call) :
  x = (result_of x, state_of x, calls_of x).
Proof. destruct x as [[r s] o]. reflexivity. Qed.

Ltac run_prims :=
  repeat (rewrite ?bind_bind, ?bind_modify, ?bind_gets, ?bind_ret; cbv beta).

Lemma display_refresh (f : Frame) (s : State) :
  when (spotify_enabled s)
    (bind (get_track_info_cached (fetch_time f) (fetch_reply f))
       (fun _ => ret tt)) s
  = (Ok tt, refreshed f s, refresh_calls f s).
Proof.
  unfold refreshed, refresh_calls, when.
  destruct (spotify_enabled s) eqn:He; cbn [andb]; [|reflexivity].
  destruct (get_track_info_cached_cases (fetch_time f) (fetch_reply f) s)
    as [(Hle & Hrun) | [(Hgt & _ & Hrun) | (_ & Hd & _)]]; [| |congruence].
  - rewrite (bind_pure _ _ _ _ Hrun).
    destruct (Z.gtb_spec (fetch_time f - last_track_fetch_time s) 2000);
      [lia|reflexivity].
  - rewrite (bind_outcome _ _ _ _ _ _ Hrun).
    destruct (Z.gtb_spec (fetch_time f - last_track_fetch_time s) 2000);
      [reflexivity|lia].
Qed.

Lemma loop_body_branch (f : Frame) (s : State) :
  loop_body f s
  = (result_of (branch f (frame_hands f s) (refreshed f (counted f s))),
     state_of (branch f (frame_hands f s) (refreshed f (counted f s))),
     refresh_calls f (counted f s)
     ++ calls_of (branch f (frame_hands f s) (refreshed f (counted f s)))).
Proof.
  unfold loop_body. run_prims. simpl_state.
  unfold frame_hands, counted, get_hand_landmarks. cbv zeta.
  destruct ((frame_count s + 1) mod process_every_n_frames =? 0).
  - destruct (detected f) as [|hand hands]; run_prims;
      match goal with
      | |- bind (when (spotify_enabled ?s1) ?m) ?k ?s1 = _ =>
          rewrite (bind_outcome _ _ _ _ _ _ (display_refresh f s1))
      end; unfold branch; reflexivity.
  - run_prims.
    match goal with
    | |- bind (when (spotify_enabled ?s1) ?m) ?k ?s1 = _ =>
        rewrite (bind_outcome _ _ _ _ _ _ (display_refresh f s1))
    end.
    simpl_state. unfold branch.
    destruct (last_hand_landmarks s) as [[|hand hands]|]; reflexivity.
Qed.

Lemma no_hands_shape (f : Frame) (s : State) :
  no_hands f s
  = handle_gestures (stable_time f) (gesture_time f) None None 0 (hands_gone s).
Proof. unfold no_hands, hands_gone. run_prims. reflexivity. Qed.

Lemma hands_visible_shape (f : Frame) (hand_landmarks : list Landmarks) (s : State) :
  hands_visible f hand_landmarks s
  = match all_features hand_landmarks with
    | Ok all_hands_data =>
        match scrub_roles all_hands_data with
        | (Some _, Some scrub_control_hand) => scrub f scrub_control_hand
        | _ =>
            no_scrub f
              (current_time f - hand_first_seen_time (appeared f s)
               <? hand_appearance_cooldown)
              all_hands_data
        end (appeared f s)
    | Raise e => (Raise e, appeared f s, [])
    end.
Proof.
  unfold hands_visible, appeared. run_prims.
  destruct (hand_was_visible s); cbn [negb when]; run_prims;
    rewrite (bind_quiet _ _ _ _ (all_hands_data_features hand_landmarks _));
    destruct (all_features hand_landmarks) as [data|e]; reflexivity.
Qed.

Lemma no_scrub_shape (f : Frame) (cooling : bool) (all_hands_data : list HandData)
    (s : State) :
  no_scrub f cooling all_hands_data s
  = (if (length all_hands_data =? 2)%nat then
       bind (handle_gestures (stable_time f) (gesture_time f) None None 0)
         (fun _ => bind (index all_hands_data 0) (fun _ => ret tt))
     else single_hand f cooling all_hands_data) (scrub_left f s).
Proof.
  unfold no_scrub, scrub_left. run_prims.
  destruct (scrubbing_active s); cbn [when]; run_prims; reflexivity.
Qed.
(** The detector touches the history only, and calls nothing. *)
Lemma detect_swipe_outcome (landmarks : Landmarks) (s : State) :
  exists r,
    (detect_swipe landmarks s = (r, s, [])
     /\ ((length (position_history s) < 8)%nat -> r = Ok None))
    \/ (detect_swipe landmarks s = (r, set_position_history [] s, [])
        /\ (8 <= length (position_history s))%nat
        /\ (r = Ok (Some swipe_left) \/ r = Ok (Some swipe_right))).
Proof.
  unfold detect_swipe. run_prims.
  destruct (Nat.ltb_spec (length (position_history s)) 8) as [Hshort|Hlong].
  { exists (Ok None). left. split; reflexivity. }
  destruct (pure_mapM (fun pos : Landmarks => index pos 0) (position_history s)
              (fun pos => pure_index pos 0%nat)) as [[wrists|e] Hwrists].
  2:{ exists (Raise e). left. rewrite (bind_quiet _ _ _ _ (Hwrists s)).
      split; [reflexivity|lia]. }
  rewrite (bind_quiet _ _ _ _ (Hwrists s)).
  destruct (pure_index wrists 0%nat) as [[start|e] Hstart].
  2:{ exists (Raise e). left. rewrite (bind_quiet _ _ _ _ (Hstart s)).
      split; [reflexivity|lia]. }
  rewrite (bind_quiet _ _ _ _ (Hstart s)).
  assert (Hlast : exists r, forall s0 : State, index_last wrists s0 = (r, s0, [])).
  { unfold index_last. destruct (rev wrists);
      [exists (Raise IndexError)|exists (Ok p)]; reflexivity. }
  destruct Hlast as [[end_|e] Hend].
  2:{ exists (Raise e). left. rewrite (bind_quiet _ _ _ _ (Hend s)).
      split; [reflexivity|lia]. }
  rewrite (bind_quiet _ _ _ _ (Hend s)). cbv zeta.
  destruct ((Z.abs (fst end_ - fst start) >? 120)
            && (Z.abs (snd end_ - snd start) <? 80));
    [|exists (Ok None); left; split; [reflexivity|lia]].
  destruct (2 * Z.abs (fst end_ - fst start) >? 3 * Z.abs (snd end_ - snd start));
    [|exists (Ok None); left; split; [reflexivity|lia]].
  run_prims.
  destruct (fst end_ - fst start >? 0).
  - exists (Ok (Some swipe_right)). right. repeat split; auto.
  - exists (Ok (Some swipe_left)). right. repeat split; auto.
Qed.

(** ** [handle_gestures] as a whole *)

Lemma handle_gestures_disabled ts tn gesture landmarks finger_count (s : State) :
  spotify_enabled s = false ->
  handle_gestures ts tn gesture landmarks finger_count s = (Ok tt, s, []).
Proof.
  intros Hd. unfold handle_gestures. run_prims. rewrite Hd. reflexivity.
Qed.

Lemma stable_count_cases (ts finger_count : Z) (s : State) :
  exists stable_count s1,
    get_stable_finger_count ts finger_count s = (Ok stable_count, s1, [])
    /\ (stable_count = None \/ stable_count = Some finger_count)
    /\ spotify_enabled s1 = spotify_enabled s
    /\ arbitration_only s s1.
Proof.
  destruct (stable_finger_count s) as [c|] eqn:Hc.
  - destruct (Z.eq_dec c finger_count) as [->|Hne].
    + eexists; exists s. rewrite (stable_same _ _ _ Hc).
      split; [reflexivity|].
      split; [destruct (_ >=? _); auto|].
      split; [reflexivity|]. repeat split.
    + eexists; eexists. rewrite stable_changed by congruence.
      split; [reflexivity|]. split; [auto|]. split; [reflexivity|]. repeat split.
  - eexists; eexists. rewrite stable_changed by congruence.
    split; [reflexivity|]. split; [auto|]. split; [reflexivity|]. repeat split.
Qed.

Lemma arbitrate_outcome (tn : Z) (gesture : option Gesture)
    (stable_count : option Z) (s : State) :
  spotify_enabled s = true ->
  exists s' o,
    arbitrate tn gesture stable_count s = (Ok tt, s', o)
    /\ arbitration_only s s'
    /\ (o = [] \/ exists c, o = [c] /\ is_gesture_command c = true)
    /\ (gesture = None \/ gesture = Some pinch ->
        stable_count = None \/ stable_count = Some 0 -> o = []).
Proof.
  intros Henabled.
  arbitrate_cases tn gesture stable_count s Henabled;
    unfold_conditions;
    try solve [exfalso; break_hyps; subst; (congruence || lia)];
    eexists; eexists;
    (split; [reflexivity|]); (split; [repeat split|]).
  all: split;
    [ first [ left; reflexivity
            | right; eexists; split; [reflexivity|]; try destruct d; reflexivity ]
    | intros Hg Hc; break_hyps; subst;
      first [ reflexivity
            | exfalso; destruct Hg; try destruct d; discriminate
            | exfalso; destruct Hc; congruence ] ].
Qed.

Lemma handle_gestures_outcome ts tn gesture landmarks finger_count (s : State) :
  exists s' o,
    handle_gestures ts tn gesture landmarks finger_count s = (Ok tt, s', o)
    /\ arbitration_only s s'
    /\ (o = [] \/ exists c, o = [c] /\ is_gesture_command c = true)
    /\ (gesture = None \/ gesture = Some pinch -> finger_count = 0 -> o = [])
    /\ (spotify_enabled s = false -> s' = s /\ o = []).
Proof.
  destruct (spotify_enabled s) eqn:Henabled.
  - destruct (stable_count_cases ts finger_count s)
      as (sc & s1 & Hstable & Hsc & He1 & Hkept).
    rewrite Henabled in He1.
    destruct (arbitrate_outcome tn gesture sc s1 He1)
      as (s' & o & Hrun & Honly & Hshape & Hquiet).
    exists s', o. split.
    { unfold handle_gestures. run_prims. rewrite Henabled. cbn [negb].
      rewrite (bind_outcome _ _ _ _ _ _ Hstable), Hrun. reflexivity. }
    split.
    { unfold arbitration_only in *. break_hyps. repeat split; congruence. }
    split; [exact Hshape|]. split; [|discriminate].
    intros Hg Hfc. apply Hquiet; [exact Hg|].
    destruct Hsc as [->| ->]; [left|right]; congruence.
  - exists s, []. rewrite (handle_gestures_disabled _ _ _ _ _ _ Henabled).
    split; [reflexivity|]. split; [repeat split|]. auto.
Qed.

(** ** One hand *)

Lemma bind_raised {A B} (e : Exception) (k : A -> M B) (s : State) :
  bind (raise e) k s = (Raise e, s, []).
Proof. reflexivity. Qed.

Lemma outcome_eta_inv {A} (x : Result A * State * list Call) :
  (result_of x, state_of x, calls_of x) = x.
Proof. destruct x as [[r s] o]. reflexivity. Qed.

Ltac run_prims_in H :=
  repeat (rewrite ?bind_bind, ?bind_modify, ?bind_gets, ?bind_ret in H;
          cbv beta in H).

Ltac single_hand_leaf Hout data Hlm cooling Hcool :=
  unfold can_trigger_gesture, mark_gesture_triggered in Hout;
  run_prims_in Hout; simpl_state;
  rewrite <- ?Hcool in Hout; clear Hcool; destruct cooling;
  cbn [negb andb] in Hout;
  repeat match type of Hout with
    | context [if ?b then _ else _] => destruct b eqn:?
    end;
  run_prims_in Hout; rewrite ?outcome_eta_inv in Hout;
  subst; eexists; eexists; cbv zeta;
  (split;
   [ idtac
   | right; exists data;
     first [ exists (@None Gesture); split; [reflexivity|];
             rewrite Hlm; apply f_equal;
             cbv beta iota delta [set_position_history set_last_gesture_time];
             simpl_state; reflexivity
           | eexists; split; [reflexivity|];
             rewrite Hlm; apply f_equal;
             cbv beta iota delta [set_position_history set_last_gesture_time];
             simpl_state; reflexivity ] ]);
  first [ left; reflexivity | right; split; [reflexivity|assumption] ].

(** [single_hand] works on the history and on the time of the last
    detected swipe, and then hands over to [handle_gestures]; while a
    cooldown is active it passes no gesture and a count of 0. *)
Lemma single_hand_shape (f : Frame) (cd : bool) (all_hands_data : list HandData)
    (s : State) :
  let cooling :=
    (current_time f - scrub_end_time s <? post_scrub_cooldown) || cd in
  exists history t,
    let s3 := set_last_gesture_time t (set_position_history history s) in
    (history = match all_hands_data with
               | data :: _ =>
                   deque_append (hd_landmarks data) (position_history s)
               | [] => position_history s
               end
     \/ history = []
        /\ (8 <= length (deque_append (hd_landmarks (hd (mkHandData [] 0 false 0 0)
                                                       all_hands_data))
                           (position_history s)))%nat)
    /\ ((exists e,
           single_hand f cd all_hands_data s = (Raise e, s3, [])
           /\ (all_hands_data = []
               \/ (exists data, hd_error all_hands_data = Some data
                                /\ hd_landmarks data = [])
               \/ ~ Forall (fun pos : Landmarks => pos <> []) history))
        \/ (exists data gesture,
              hd_error all_hands_data = Some data
              /\ single_hand f cd all_hands_data s
                 = handle_gestures (stable_time f) (gesture_time f)
                     (if cooling then None else gesture)
                     (Some (hd_landmarks data))
                     (if cooling then 0 else hd_finger_count data) s3)).
Proof.
  intros cooling. subst cooling. destruct_state s. simpl_state.
  remember ((current_time f - s_scrub_end <? post_scrub_cooldown) || cd)
    as cooling eqn:Hcool.
  match goal with
  | |- context [single_hand f cd all_hands_data ?s0] =>
      remember (single_hand f cd all_hands_data s0) as out eqn:Hout
  end.
  unfold single_hand in Hout. run_prims_in Hout. simpl_state.
  destruct all_hands_data as [|data rest].
  { cbn [index nth_error] in Hout. rewrite bind_raised in Hout. subst out.
    eexists; eexists. split; [left; reflexivity|]. left. eexists.
    split; [reflexivity|]. left; reflexivity. }
  cbn [index nth_error hd hd_error] in *. run_prims_in Hout. simpl_state.
  destruct (hd_landmarks data) as [|wrist others] eqn:Hlm;
    cbn [index nth_error] in Hout.
  { rewrite bind_raised in Hout. subst out.
    eexists; eexists. split; [left; reflexivity|]. left. eexists.
    split; [reflexivity|]. right; left. exists data. auto. }
  run_prims_in Hout.
  match type of Hout with
  | context [bind (detect_swipe ?l) ?k ?s1] =>
      destruct (detect_swipe_outcome l s1) as [r [(Hrun & _) | (Hrun & Hlen & Hr)]]
  end.
  - destruct r as [[sw|]|e].
    + rewrite (bind_quiet _ _ _ _ Hrun) in Hout. single_hand_leaf Hout data Hlm cooling Hcool.
    + rewrite (bind_quiet _ _ _ _ Hrun) in Hout. single_hand_leaf Hout data Hlm cooling Hcool.
    + rewrite (bind_quiet _ _ _ _ Hrun) in Hout. subst out.
      eexists; eexists. cbv zeta.
      split;
        [|left; eexists; split;
          [ cbv beta iota delta [set_position_history set_last_gesture_time];
            simpl_state; reflexivity |] ].
      * left; reflexivity.
      * right; right. intros Hwrists.
        match type of Hrun with
        | detect_swipe ?l ?s1 = _ =>
            destruct (detect_swipe_run l s1 Hwrists) as (r & Hok & _)
        end.
        rewrite Hok in Hrun. discriminate.
  - assert (Hsw : exists sw, r = Ok (Some sw))
      by (destruct Hr as [-> | ->]; eexists; reflexivity).
    destruct Hsw as [sw ->].
    rewrite (bind_outcome _ _ _ _ _ _ Hrun) in Hout. cbn [app] in Hout.
    simpl_state. single_hand_leaf Hout data Hlm cooling Hcool.
Qed.

(** ** Scrubbing *)

Ltac scrub_quiet pre :=
  simpl_state; (split; [repeat split|]);
  exists pre, (@nil Call);
  (split; [reflexivity|]);
  (split; [intros Hoff; first [ split; reflexivity | congruence ]|]);
  cbn; auto.

(** The calls of the scrubbing block: at most a refresh of the track
    information, then at most one seek, and a seek only under
    [seek_conditions]. *)
Lemma scrub_calls (f : Frame) (scrub_control_hand : HandData) (s : State) :
  scrub_kept s (state_of (scrub f scrub_control_hand s))
  /\ exists pre post,
    calls_of (scrub f scrub_control_hand s) = pre ++ post
    /\ (spotify_enabled s = false -> pre = [] /\ post = [])
    /\ (pre = [] \/ pre = [get_current_track_info])
    /\ (post = []
        \/ exists info position,
             post = [seek_position position]
             /\ cached_track_info (state_of (scrub f scrub_control_hand s))
                = Some info
             /\ last_scrub_time (state_of (scrub f scrub_control_hand s))
                = current_time f
             /\ seek_conditions f scrub_control_hand s info position).
Proof.
  unfold seek_conditions, scrub_kept, arbitration_kept. destruct_state s.
  simpl_state.
  match goal with
  | |- context [scrub f scrub_control_hand ?s0] =>
      remember (scrub f scrub_control_hand s0) as out eqn:Hout
  end.
  unfold scrub in Hout. run_prims_in Hout. simpl_state.
  destruct s_active; cbn [negb] in Hout.
  - destruct s_start_x as [x0|];
      [destruct s_start_progress as [p0|]|];
      try (subst out; scrub_quiet (@nil Call); fail).
    run_prims_in Hout. simpl_state.
    destruct (Z.gtb_spec (Z.abs ((wrist_x scrub_control_hand - x0) * 250)) 500)
      as [Hms|Hms];
      cbn [andb] in Hout; run_prims_in Hout; simpl_state;
      [|subst out; scrub_quiet (@nil Call)].
    destruct (Z.gtb_spec (current_time f - s_last_scrub) 200) as [Ht|Ht];
      [|subst out; scrub_quiet (@nil Call)].
    match type of Hout with
    | context [bind (get_track_info_cached ?t ?reply) ?k ?s1] =>
        destruct (get_track_info_cached_cases t reply s1)
          as [(_ & Hrun) | [(_ & He & Hrun) | (_ & He & Hrun)]]
    end.
    + rewrite (bind_pure _ _ _ _ Hrun) in Hout. simpl_state.
      destruct s_cached as [info|];
        [|subst out; scrub_quiet (@nil Call)].
      unfold spotify in Hout.
      destruct s_enabled.
      * unfold bind, modify in Hout. cbn [app] in Hout. subst out.
        simpl_state. split; [repeat split|].
        exists [], [seek_position
                      (Z.max 0 (Z.min (p0 + (wrist_x scrub_control_hand - x0) * 250)
                                  (duration_ms info - 1000)))].
        simpl_state. split; [reflexivity|]. split; [discriminate|].
        split; [auto|]. right.
        exists info. eexists. split; [reflexivity|].
        split; [reflexivity|]. split; [reflexivity|].
        split; [reflexivity|]. exists x0, p0. repeat split; lia.
      * unfold bind in Hout. subst out. scrub_quiet (@nil Call).
    + rewrite (bind_outcome _ _ _ _ _ _ Hrun) in Hout. simpl_state.
      destruct (scrub_fetch_reply f) as [info|] eqn:Hreply.
      * unfold spotify, bind, modify in Hout. simpl_state.
        destruct s_enabled; [|discriminate].
        cbn [app fst snd] in Hout. subst out.
        simpl_state. split; [repeat split|].
        exists [get_current_track_info],
               [seek_position
                  (Z.max 0 (Z.min (p0 + (wrist_x scrub_control_hand - x0) * 250)
                              (duration_ms info - 1000)))].
        simpl_state. split; [reflexivity|]. split; [discriminate|].
        split; [auto|]. right.
        exists info. eexists. split; [reflexivity|].
        split; [reflexivity|]. split; [reflexivity|].
        split; [reflexivity|]. exists x0, p0. repeat split; lia.
      * unfold ret in Hout. subst out.
        scrub_quiet [get_current_track_info].
    + rewrite (bind_raise _ _ _ _ _ _ Hrun) in Hout. subst out.
      scrub_quiet (@nil Call).
  - run_prims_in Hout. simpl_state.
    match type of Hout with
    | context [bind (get_track_info_cached ?t ?reply) ?k ?s1] =>
        destruct (get_track_info_cached_cases t reply s1)
          as [(_ & Hrun) | [(_ & He & Hrun) | (_ & He & Hrun)]]
    end.
    + rewrite (bind_pure _ _ _ _ Hrun) in Hout. simpl_state.
      destruct s_cached; unfold modify, ret in Hout; subst out;
        scrub_quiet (@nil Call).
    + rewrite (bind_outcome _ _ _ _ _ _ Hrun) in Hout. simpl_state.
      destruct (scrub_fetch_reply f); unfold modify, ret in Hout; subst out;
        scrub_quiet [get_current_track_info].
    + rewrite (bind_raise _ _ _ _ _ _ Hrun) in Hout. subst out.
      scrub_quiet (@nil Call).
Qed.

(** ** The five ways of an iteration *)

Lemma scrub_roles_cases (all_hands_data : list HandData) :
  (exists trigger control,
     scrub_roles all_hands_data = (Some trigger, Some control)
     /\ length all_hands_data = 2%nat
     /\ In control all_hands_data /\ In trigger all_hands_data
     /\ is_pinching control = true /\ hd_finger_count trigger >= 4)
  \/ scrub_roles all_hands_data = (None, None).
Proof.
  unfold scrub_roles.
  destruct all_hands_data as [|hand1 [|hand2 [|hand3 rest]]]; auto.
  destruct ((hd_finger_count hand1 >=? 4) && is_pinching hand2) eqn:H12.
  { left. exists hand1, hand2. apply andb_prop in H12. cbn [In length].
    repeat split; try tauto; lia. }
  destruct ((hd_finger_count hand2 >=? 4) && is_pinching hand1) eqn:H21.
  { left. exists hand2, hand1. apply andb_prop in H21. cbn [In length].
    repeat split; try tauto; lia. }
  right. reflexivity.
Qed.

Lemma frame_cases (f : Frame) (s : State) :
  let hands := frame_hands f s in
  let s1 := branch_state f s in
  (hands = []
   /\ loop_body f s
      = after_refresh f s
          (handle_gestures (stable_time f) (gesture_time f) None None 0
             (hands_gone s1)))
  \/ (hands <> [] /\ exists e,
        all_features hands = Raise e
        /\ loop_body f s = after_refresh f s (Raise e, appeared f s1, []))
  \/ (hands <> [] /\ exists all_hands_data trigger control,
        all_features hands = Ok all_hands_data
        /\ scrub_roles all_hands_data = (Some trigger, Some control)
        /\ loop_body f s = after_refresh f s (scrub f control (appeared f s1)))
  \/ (hands <> [] /\ exists all_hands_data,
        all_features hands = Ok all_hands_data
        /\ scrub_roles all_hands_data = (None, None)
        /\ length all_hands_data = 2%nat
        /\ loop_body f s
           = after_refresh f s
               (handle_gestures (stable_time f) (gesture_time f) None None 0
                  (scrub_left f (appeared f s1))))
  \/ (hands <> [] /\ exists all_hands_data,
        all_features hands = Ok all_hands_data
        /\ scrub_roles all_hands_data = (None, None)
        /\ length all_hands_data <> 2%nat
        /\ loop_body f s
           = after_refresh f s
               (single_hand f (in_hand_appearance_cooldown f s) all_hands_data
                  (scrub_left f (appeared f s1)))).
Proof.
  intros hands s1. rewrite loop_body_branch.
  fold hands. fold (branch_state f s). fold s1.
  change (result_of (branch f hands s1), state_of (branch f hands s1),
          refresh_calls f (counted f s) ++ calls_of (branch f hands s1))
    with (after_refresh f s (branch f hands s1)).
  destruct hands as [|hand rest] eqn:Hhands.
  { left. split; [reflexivity|]. cbn [branch]. rewrite no_hands_shape. reflexivity. }
  right. cbn [branch]. rewrite hands_visible_shape.
  destruct (all_features (hand :: rest)) as [all_hands_data|e] eqn:Hfeatures.
  2:{ left. split; [discriminate|]. exists e. auto. }
  right.
  destruct (scrub_roles_cases all_hands_data)
    as [(trigger & control & Hroles & _) | Hroles]; rewrite Hroles.
  { left. split; [discriminate|]. exists all_hands_data, trigger, control. auto. }
  right. rewrite no_scrub_shape.
  destruct (Nat.eqb_spec (length all_hands_data) 2) as [Htwo|Hone].
  - left. split; [discriminate|]. exists all_hands_data.
    repeat (split; [assumption || reflexivity|]).
    f_equal.
    destruct (handle_gestures_outcome (stable_time f) (gesture_time f) None None 0
                (scrub_left f (appeared f s1)))
      as (s' & o & Hrun & _).
    rewrite (bind_outcome _ _ _ _ _ _ Hrun), Hrun.
    destruct all_hands_data as [|d ds]; [discriminate|].
    cbn [index nth_error]. rewrite !bind_ret. unfold ret.
    cbn [result_of state_of calls_of fst snd]. rewrite app_nil_r. reflexivity.
  - right. split; [discriminate|]. exists all_hands_data.
    repeat (split; [assumption || reflexivity|]). reflexivity.
Qed.

(** ** At most one command *)

Lemma refresh_calls_cases (f : Frame) (s : State) :
  refresh_calls f s = [] \/ refresh_calls f s = [get_current_track_info].
Proof. unfold refresh_calls. destruct (_ && _); auto. Qed.

Ltac frame_cases_of f s :=
  let Hhands := fresh "Hhands" in
  let Hrun := fresh "Hrun" in
  let Hfeatures := fresh "Hfeatures" in
  let Hroles := fresh "Hroles" in
  let Hlength := fresh "Hlength" in
  let e := fresh "e" in
  let all_hands_data := fresh "all_hands_data" in
  let trigger := fresh "trigger" in
  let control := fresh "control" in
  destruct (frame_cases f s)
    as [(Hhands & Hrun)
       | [(Hhands & e & Hfeatures & Hrun)
         | [(Hhands & all_hands_data & trigger & control & Hfeatures & Hroles & Hrun)
           | [(Hhands & all_hands_data & Hfeatures & Hroles & Hlength & Hrun)
             | (Hhands & all_hands_data & Hfeatures & Hroles & Hlength & Hrun)]]]];
  rewrite Hrun; unfold after_refresh; cbn [result_of state_of calls_of fst snd].

(** The calls of an iteration after the refresh for the display: nothing
    or one gesture command, or what the scrubbing block calls. *)
Lemma frame_calls (f : Frame) (s : State) :
  exists o,
    calls_of (loop_body f s) = refresh_calls f (counted f s) ++ o
    /\ ((o = [] \/ exists c, o = [c] /\ is_gesture_command c = true)
        \/ exists pre post,
             o = pre ++ post
             /\ (pre = [] \/ pre = [get_current_track_info])
             /\ (post = [] \/ exists position, post = [seek_position position])).
Proof.
  frame_cases_of f s.
  - destruct (handle_gestures_outcome (stable_time f) (gesture_time f) None None 0
                (hands_gone (branch_state f s))) as (s' & o & -> & _ & Ho & _).
    exists o. cbn [snd]. auto.
  - exists []. auto.
  - destruct (scrub_calls f control (appeared f (branch_state f s)))
      as (_ & pre & post & Hcalls & _ & Hpre & Hpost).
    eexists. split; [reflexivity|]. right. exists pre, post.
    split; [exact Hcalls|]. split; [exact Hpre|].
    destruct Hpost as [->|(info & position & -> & _)]; eauto.
  - destruct (handle_gestures_outcome (stable_time f) (gesture_time f) None None 0
                (scrub_left f (appeared f (branch_state f s))))
      as (s' & o & -> & _ & Ho & _).
    exists o. cbn [snd]. auto.
  - destruct (single_hand_shape f (in_hand_appearance_cooldown f s) all_hands_data
                (scrub_left f (appeared f (branch_state f s))))
      as (history & t & _ & [(e & -> & _) | (data & gesture & _ & ->)]).
    + exists []. auto.
    + match goal with
      | |- context [handle_gestures ?a ?b ?g ?l ?n ?s0] =>
          destruct (handle_gestures_outcome a b g l n s0)
            as (s' & o & -> & _ & Ho & _)
      end.
      exists o. cbn [snd]. auto.
Qed.

Lemma commands_app (o1 o2 : list Call) :
  commands (o1 ++ o2) = commands o1 ++ commands o2.
Proof. apply filter_app. Qed.

Lemma gesture_command_not_seek (c : Call) :
  is_gesture_command c = true -> is_seek c = false /\ is_command c = true.
Proof. destruct c; cbn; intros H; try discriminate; auto. Qed.

(** C1. An iteration of the loop sends at most one playback command: the
    calls on the backend during the iteration hold at most one that is not
    a read of the track information.  A seek of the scrubbing block and a
    command of a single-hand gesture never occur in the same iteration, and
    one call of [handle_gestures] makes at most one call in all, a swipe,
    a play/pause or a volume command. *)
Theorem at_most_one_command (f : Frame) (s : State) :
  (length (commands (calls_of (loop_body f s))) <= 1)%nat
  /\ (forall c c',
         In c (calls_of (loop_body f s)) -> In c' (calls_of (loop_body f s)) ->
         is_seek c = true -> is_gesture_command c' = true -> False)
  /\ (forall stable_time current_time gesture landmarks finger_count,
         let o := calls_of (handle_gestures stable_time current_time gesture
                              landmarks finger_count s) in
         (length o <= 1)%nat
         /\ forall c, In c o -> is_gesture_command c = true).
Proof.
  split; [|split].
  - destruct (frame_calls f s) as (o & -> & Ho).
    rewrite commands_app.
    destruct (refresh_calls_cases f (counted f s)) as [-> | ->]; cbn [commands filter is_command app].
    all: destruct Ho as [[-> | (c & -> & Hc)]
                        | (pre & post & -> & [-> | ->] & [-> | (p & ->)])];
      cbn [commands filter is_command app length]; try lia.
    all: destruct (gesture_command_not_seek c Hc) as (_ & ->); cbn; lia.
  - intros c c' Hin Hin' Hseek Hgesture.
    destruct (frame_calls f s) as (o & Heq & Ho). rewrite Heq in Hin, Hin'.
    destruct (refresh_calls_cases f (counted f s)) as [Hr | Hr]; rewrite Hr in *.
    all: destruct Ho as [[-> | (c0 & -> & Hc)]
                        | (pre & post & -> & [-> | ->] & [-> | (p & ->)])];
      cbn [In app] in Hin, Hin'.
    all: repeat match goal with
           | H : _ \/ _ |- _ => destruct H
           | H : False |- _ => destruct H
           end; subst; try discriminate.
    all: try (destruct (gesture_command_not_seek _ Hc); congruence).
  - intros ts tn gesture landmarks finger_count o. subst o.
    destruct (handle_gestures_outcome ts tn gesture landmarks finger_count s)
      as (s' & o & -> & _ & [-> | (c & -> & Hc)] & _); cbn [calls_of snd length In].
    + split; [lia|]. intros c [].
    + split; [lia|]. intros c0 [<- | []]. exact Hc.
Qed.

(** ** What the start of an iteration keeps *)

Lemma branch_state_fields (f : Frame) (s : State) :
  let s1 := branch_state f s in
  arbitration_kept s s1
  /\ scrubbing_active s1 = scrubbing_active s
  /\ scrub_start_x s1 = scrub_start_x s
  /\ scrub_start_progress s1 = scrub_start_progress s
  /\ last_scrub_time s1 = last_scrub_time s
  /\ scrub_end_time s1 = scrub_end_time s
  /\ hand_was_visible s1 = hand_was_visible s
  /\ hand_first_seen_time s1 = hand_first_seen_time s
  /\ position_history s1 = position_history s.
Proof.
  unfold branch_state, refreshed, counted, arbitration_kept. cbv zeta.
  destruct (_ =? 0); simpl_state; destruct (_ && _); simpl_state;
    repeat split.
Qed.

Lemma appeared_fields (f : Frame) (s : State) :
  let s1 := appeared f (branch_state f s) in
  arbitration_kept s s1
  /\ scrubbing_active s1 = scrubbing_active s
  /\ scrub_start_x s1 = scrub_start_x s
  /\ scrub_start_progress s1 = scrub_start_progress s
  /\ last_scrub_time s1 = last_scrub_time s
  /\ scrub_end_time s1 = scrub_end_time s
  /\ hand_was_visible s1 = true
  /\ hand_first_seen_time s1
     = (if hand_was_visible s then hand_first_seen_time s else current_time f)
  /\ position_history s1
     = (if hand_was_visible s then position_history s else []).
Proof.
  destruct (branch_state_fields f s)
    as (Harb & Ha & Hx & Hp & Hl & He & Hv & Hf & Hh).
  cbv zeta. unfold appeared. rewrite Hv.
  destruct (hand_was_visible s) eqn:Hvisible; simpl_state; auto 10.
Qed.

(** ** Seeking *)





(** ** Cooldowns *)

Lemma scrub_left_fields (f : Frame) (s : State) :
  scrub_end_time (scrub_left f s)
  = (if scrubbing_active s then current_time f else scrub_end_time s)
  /\ position_history (scrub_left f s) = position_history s
  /\ hand_first_seen_time (scrub_left f s) = hand_first_seen_time s
  /\ hand_was_visible (scrub_left f s) = hand_was_visible s
  /\ arbitration_kept s (scrub_left f s).
Proof.
  unfold scrub_left, arbitration_kept.
  destruct (scrubbing_active s); simpl_state; repeat split.
Qed.

Lemma hands_gone_fields (s : State) :
  position_history (hands_gone s) = position_history s
  /\ hand_was_visible (hands_gone s) = false
  /\ scrub_end_time (hands_gone s) = scrub_end_time s
  /\ arbitration_kept s (hands_gone s).
Proof. unfold hands_gone, arbitration_kept. simpl_state. repeat split. Qed.

(** The flag that [single_hand] computes is set whenever a cooldown is
    active for the hands of the iteration. *)
Lemma cooling_flag (f : Frame) (s : State) :
  cooldown_active f s ->
  (current_time f
   - scrub_end_time (scrub_left f (appeared f (branch_state f s)))
   <? post_scrub_cooldown)
  || in_hand_appearance_cooldown f s = true.
Proof.
  intros Hcool.
  destruct (appeared_fields f s) as (_ & Ha & _ & _ & _ & He & _ & Hf & _).
  destruct (scrub_left_fields f (appeared f (branch_state f s))) as (Hend & _).
  unfold in_hand_appearance_cooldown, post_scrub_cooldown,
    hand_appearance_cooldown.
  rewrite Hend, Ha, He, Hf. apply orb_true_iff.
  destruct Hcool as [Hv | [Hseen | [Hactive | Hended]]].
  - rewrite Hv. right. apply Z.ltb_lt. lia.
  - right. destruct (hand_was_visible s); apply Z.ltb_lt; lia.
  - rewrite Hactive. left. apply Z.ltb_lt. lia.
  - left. destruct (scrubbing_active s); apply Z.ltb_lt; lia.
Qed.

Lemma handle_gestures_idle_calls a b landmarks (s : State) :
  calls_of (handle_gestures a b None landmarks 0 s) = [].
Proof.
  destruct (handle_gestures_outcome a b None landmarks 0 s)
    as (s' & o & -> & _ & _ & Hquiet & _).
  cbn [calls_of snd]. apply Hquiet; auto.
Qed.

(** While a cooldown is active no command of a single-hand gesture is
    sent, whatever the hands do; without hands none is sent either. *)
Lemma cooldown_blocks (f : Frame) (s : State) :
  cooldown_active f s \/ frame_hands f s = [] ->
  forall c, In c (calls_of (loop_body f s)) -> is_gesture_command c = false.
Proof.
  intros Hcool c Hin.
  assert (Hrefresh : forall o,
            (forall c0, In c0 o -> is_gesture_command c0 = false) ->
            In c (refresh_calls f (counted f s) ++ o) ->
            is_gesture_command c = false).
  { intros o Ho Hc. apply in_app_or in Hc. destruct Hc as [Hc|Hc]; [|auto].
    destruct (refresh_calls_cases f (counted f s)) as [Hr|Hr];
      rewrite Hr in Hc; cbn in Hc; [destruct Hc|].
    destruct Hc as [<- | []]. reflexivity. }
  destruct (frame_cases f s)
    as [(Hhands & Hrun)
       | [(Hhands & e & Hfeatures & Hrun)
         | [(Hhands & all_hands_data & trigger & control & Hfeatures & Hroles & Hrun)
           | [(Hhands & all_hands_data & Hfeatures & Hroles & Hlength & Hrun)
             | (Hhands & all_hands_data & Hfeatures & Hroles & Hlength & Hrun)]]]];
    rewrite Hrun in Hin; unfold after_refresh in Hin; cbn [calls_of snd] in Hin;
    revert Hin; apply Hrefresh; intros c0 Hc0.
  - fold (calls_of (handle_gestures (stable_time f) (gesture_time f) None None 0
                      (hands_gone (branch_state f s)))) in Hc0.
    rewrite handle_gestures_idle_calls in Hc0. destruct Hc0.
  - destruct Hc0.
  - fold (calls_of (scrub f control (appeared f (branch_state f s)))) in Hc0.
    destruct (scrub_calls f control (appeared f (branch_state f s)))
      as (_ & pre & post & Hcalls & _ & Hpre & Hpost).
    rewrite Hcalls in Hc0. apply in_app_or in Hc0.
    destruct Hc0 as [Hc0|Hc0].
    + destruct Hpre as [-> | ->]; cbn in Hc0; [destruct Hc0|].
      destruct Hc0 as [<- | []]. reflexivity.
    + destruct Hpost as [-> | (info & position & -> & _)]; cbn in Hc0;
        [destruct Hc0|].
      destruct Hc0 as [<- | []]. reflexivity.
  - fold (calls_of (handle_gestures (stable_time f) (gesture_time f) None None 0
                      (scrub_left f (appeared f (branch_state f s))))) in Hc0.
    rewrite handle_gestures_idle_calls in Hc0. destruct Hc0.
  - destruct Hcool as [Hcool | Hnone]; [|congruence].
    pose proof (cooling_flag f s Hcool) as Hflag.
    destruct (single_hand_shape f (in_hand_appearance_cooldown f s) all_hands_data
                (scrub_left f (appeared f (branch_state f s))))
      as (history & t & _ & [(e & Hsingle & _) | (data & gesture & _ & Hsingle)]);
      rewrite Hsingle in Hc0.
    + destruct Hc0.
    + rewrite Hflag in Hc0.
      fold (calls_of (handle_gestures (stable_time f) (gesture_time f) None
                        (Some (hd_landmarks data)) 0
                        (set_last_gesture_time t
                           (set_position_history history
                              (scrub_left f (appeared f (branch_state f s)))))))
        in Hc0.
      rewrite handle_gestures_idle_calls in Hc0. destruct Hc0.
Qed.

(** ** The hands of a frame and their data *)

Lemma features_landmarks (hand_lms : Landmarks) (data : HandData) :
  features hand_lms = Ok data ->
  hd_landmarks data = hand_lms /\ hand_lms <> [].
Proof.
  unfold features, hand_data, count_extended_fingers.
  destruct (pure_count_fingers_loop hand_lms (seq 0 5) 0) as [[n|e] Hn];
    rewrite (bind_quiet _ _ _ _ (Hn _)); [|discriminate].
  assert (Hpinch : pure (detect_pinch hand_lms)).
  { unfold detect_pinch.
    repeat (apply pure_bind; [apply pure_index|]; intros ?). apply pure_ret. }
  destruct Hpinch as [[b|e] Hb];
    rewrite (bind_quiet _ _ _ _ (Hb _)); [|discriminate].
  destruct hand_lms as [|wrist others]; [discriminate|].
  cbn. intros Heq. injection Heq as <-. split; [reflexivity|discriminate].
Qed.

Lemma all_features_landmarks (hand_landmarks : list Landmarks)
    (all_hands_data : list HandData) :
  all_features hand_landmarks = Ok all_hands_data ->
  map hd_landmarks all_hands_data = hand_landmarks
  /\ Forall (fun hand_lms : Landmarks => hand_lms <> []) hand_landmarks.
Proof.
  revert all_hands_data.
  induction hand_landmarks as [|hand_lms rest IH]; intros all_hands_data.
  - unfold all_features. cbn. intros Heq. injection Heq as <-. auto.
  - unfold all_features. cbn [mapM].
    rewrite (bind_quiet _ _ _ _ (hand_data_features hand_lms _)).
    destruct (features hand_lms) as [data|e] eqn:Hdata; [|discriminate].
    rewrite (bind_quiet _ _ _ _ (all_hands_data_features rest _)).
    destruct (all_features rest) as [others|e] eqn:Hothers; [|discriminate].
    cbn. intros Heq. injection Heq as <-.
    destruct (IH others eq_refl) as (Hmap & Hall).
    destruct (features_landmarks hand_lms data Hdata) as (Hlm & Hne).
    cbn [map]. rewrite Hlm, Hmap. split; [reflexivity|]. constructor; assumption.
Qed.

(** ** A hand appears *)


Lemma state_of_after_refresh (f : Frame) (s : State) x :
  state_of (after_refresh f s x) = state_of x.
Proof. reflexivity. Qed.





(** ** The post-scrub cooldown *)

(** The end of scrubbing is stamped when the pair of hands gives way to
    other hands, and the stamp blocks the single-hand gestures for 2.0 s. *)
Lemma scrub_exit_with_hands (f : Frame) (s : State) :
  scrubbing_active s = true ->
  frame_hands f s <> [] ->
  (forall all_hands_data,
      all_features (frame_hands f s) = Ok all_hands_data ->
      scrub_roles all_hands_data = (None, None)) ->
  result_of (loop_body f s) = Ok tt ->
  scrubbing_active (state_of (loop_body f s)) = false
  /\ scrub_end_time (state_of (loop_body f s)) = current_time f.
Proof.
  intros Hactive Hhands Hroles Hok.
  destruct (appeared_fields f s) as (_ & Ha & _).
  rewrite Hactive in Ha.
  assert (Hleft : scrubbing_active (scrub_left f (appeared f (branch_state f s)))
                  = false
                  /\ scrub_end_time (scrub_left f (appeared f (branch_state f s)))
                     = current_time f).
  { destruct (scrub_left_fields f (appeared f (branch_state f s))) as (He & _).
    rewrite Ha in He. split; [reflexivity|exact He]. }
  destruct Hleft as (Hoff & Hend).
  destruct (frame_cases f s)
    as [(Hnone & Hrun)
       | [(_ & e & Hfeatures & Hrun)
         | [(_ & all_hands_data & trigger & control & Hfeatures & Hr & Hrun)
           | [(_ & all_hands_data & Hfeatures & Hr & Hlength & Hrun)
             | (_ & all_hands_data & Hfeatures & Hr & Hlength & Hrun)]]]];
    [congruence| | |..].
  - rewrite Hrun in Hok. discriminate Hok.
  - rewrite (Hroles _ Hfeatures) in Hr. discriminate.
  - rewrite Hrun, state_of_after_refresh.
    destruct (handle_gestures_outcome (stable_time f) (gesture_time f) None None 0
                (scrub_left f (appeared f (branch_state f s))))
      as (s' & o & -> & Honly & _).
    cbn [state_of fst snd]. unfold arbitration_only in Honly. break_hyps.
    split; congruence.
  - rewrite Hrun, state_of_after_refresh. rewrite Hrun in Hok.
    destruct (single_hand_shape f (in_hand_appearance_cooldown f s) all_hands_data
                (scrub_left f (appeared f (branch_state f s))))
      as (history & t & _ & [(e & Hsingle & _) | (data & gesture & _ & Hsingle)]).
    + unfold after_refresh in Hok. rewrite Hsingle in Hok. discriminate Hok.
    + rewrite Hsingle.
      match goal with
      | |- context [handle_gestures ?a ?b ?g ?l ?n ?s0] =>
          destruct (handle_gestures_outcome a b g l n s0)
            as (s' & o & -> & Honly & _)
      end.
      cbn [state_of fst snd]. unfold arbitration_only in Honly.
      simpl_state. break_hyps. split; congruence.
Qed.

Lemma post_scrub_cooldown_blocks (f : Frame) (s : State) :
  scrubbing_active s = true \/ current_time f - scrub_end_time s < 2000 ->
  forall c, In c (calls_of (loop_body f s)) -> is_gesture_command c = false.
Proof.
  intros Hcool. apply cooldown_blocks. left. unfold cooldown_active. tauto.
Qed.

(** C4 at the input on which it fails.  Scrubbing is active after the third
    frame of [scrub_then_vanish]; in the fourth, at 1000300, no hand is
    detected and scrubbing ends without a stamp; one hand returns with one
    finger up, and the toggle is sent at 1001400, which is 1.1 s after
    scrubbing ended. *)
Theorem scrub_exit_without_hands_leaves_no_stamp :
  scrubbing_active (run_state (firstn 3 scrub_then_vanish) (init true)) = true
  /\ frame_hands (frame_at 1000300 [])
       (run_state (firstn 3 scrub_then_vanish) (init true)) = []
  /\ scrubbing_active (run_state scrub_then_vanish (init true)) = false
  /\ scrub_end_time (run_state scrub_then_vanish (init true)) = 0
  /\ calls_of (loop_body toggle_frame
                 (run_state (scrub_then_vanish ++ one_finger_returns) (init true)))
     = [play_pause]
  /\ current_time toggle_frame - 1000300 < 2000.
Proof.
  repeat split; vm_compute; reflexivity.
Qed.

(** ** Without a backend *)

Lemma no_backend_no_calls (f : Frame) (s : State) :
  spotify_enabled s = false -> calls_of (loop_body f s) = [].
Proof.
  intros Hoff.
  destruct (branch_state_fields f s) as ((He & _) & _).
  destruct (appeared_fields f s) as ((He1 & _) & _).
  destruct (scrub_left_fields f (appeared f (branch_state f s)))
    as (_ & _ & _ & _ & (He2 & _)).
  destruct (hands_gone_fields (branch_state f s)) as (_ & _ & _ & (He3 & _)).
  assert (Hrefresh : refresh_calls f (counted f s) = []).
  { unfold refresh_calls.
    replace (spotify_enabled (counted f s)) with false; [reflexivity|].
    unfold counted. cbv zeta. destruct (_ =? 0); simpl_state; congruence. }
  destruct (frame_cases f s)
    as [(Hnone & Hrun)
       | [(_ & e & Hfeatures & Hrun)
         | [(_ & all_hands_data & trigger & control & Hfeatures & Hr & Hrun)
           | [(_ & all_hands_data & Hfeatures & Hr & Hlength & Hrun)
             | (_ & all_hands_data & Hfeatures & Hr & Hlength & Hrun)]]]];
    rewrite Hrun; unfold after_refresh; cbn [calls_of snd]; rewrite Hrefresh;
    cbn [app].
  - rewrite handle_gestures_disabled by congruence. reflexivity.
  - reflexivity.
  - fold (calls_of (scrub f control (appeared f (branch_state f s)))).
    destruct (scrub_calls f control (appeared f (branch_state f s)))
      as (_ & pre & post & -> & Hquiet & _).
    destruct Hquiet as (-> & ->); [congruence|reflexivity].
  - rewrite handle_gestures_disabled by congruence. reflexivity.
  - destruct (single_hand_shape f (in_hand_appearance_cooldown f s) all_hands_data
                (scrub_left f (appeared f (branch_state f s))))
      as (history & t & _ & [(e & -> & _) | (data & gesture & _ & ->)]);
      [reflexivity|].
    rewrite handle_gestures_disabled; [reflexivity|]. simpl_state. congruence.
Qed.

(** C5 at the input on which it fails.  Without a backend the first frame,
    without hands, passes; the second shows a scrubbing pair, the
    scrubbing block asks for the track information, and the missing
    [self.spotify] raises [AttributeError] out of the loop. *)
Theorem scrub_without_backend_raises :
  spotify_enabled (init false) = false
  /\ run_result [frame_at 1000000 []; frame_at 1000100 (scrubbing_pair 400)]
       (init false) = Raise AttributeError
  /\ run_calls [frame_at 1000000 []; frame_at 1000100 (scrubbing_pair 400)]
       (init false) = [[]; []]
  /\ result_of (loop_body (frame_at 1000100 (scrubbing_pair 400))
                  (run_state [frame_at 1000000 []] (init false)))
     = Raise AttributeError.
Proof.
  repeat split; vm_compute; reflexivity.
Qed.

(** ** Arbitration without an eligible hand *)

Lemma deque_append_forall {A} (P : A -> Prop) (x : A) (d : list A) :
  Forall P d -> P x -> Forall P (deque_append x d).
Proof.
  intros Hd Hx. unfold deque_append.
  destruct (length d <? maxlen)%nat; apply Forall_app; split;
    try (constructor; [exact Hx|constructor]); [exact Hd|].
  destruct d as [|a d]; [constructor|]. inversion Hd; assumption.
Qed.

Lemma arbitration_kept_trans (s s1 s2 : State) :
  arbitration_kept s s1 -> arbitration_kept s1 s2 -> arbitration_kept s s2.
Proof.
  unfold arbitration_kept. intros H1 H2. break_hyps. repeat split; congruence.
Qed.

(** A stable count of 0 arms play/pause and the volume again once their
    cooldowns have passed, and sends nothing. *)
Lemma handle_gestures_idle_rearms ts tn landmarks (s : State) :
  spotify_enabled s = true ->
  stable_finger_count s = Some 0 ->
  ts - finger_count_start_time s >= 300 ->
  (tn - last_play_pause_time s >= 1500 ->
   play_pause_armed (state_of (handle_gestures ts tn None landmarks 0 s)) = true)
  /\ (tn - last_volume_time s >= 1000 ->
      volume_gesture_armed (state_of (handle_gestures ts tn None landmarks 0 s))
      = true
      /\ last_volume_gesture (state_of (handle_gestures ts tn None landmarks 0 s))
         = None).
Proof.
  intros Henabled Hstable Hheld.
  unfold handle_gestures. run_prims. rewrite Henabled. cbn [negb].
  rewrite (bind_pure _ _ _ (Some 0)).
  2:{ rewrite (stable_same _ _ _ Hstable). unfold stability_threshold.
      destruct (Z.geb_spec (ts - finger_count_start_time s) 300); [reflexivity|lia]. }
  arbitrate_cases tn (@None Gesture) (Some 0) s Henabled;
    unfold_conditions; try (destruct d; discriminate);
    try solve [exfalso; break_hyps; congruence];
    split; intros Hcool; try split; try reflexivity;
    exfalso; break_hyps;
    match goal with
    | H : ~ _ |- _ => apply H; repeat split; solve [discriminate | congruence | lia]
    end.
Qed.

Lemma idle_iteration (f : Frame) (s : State) :
  frame_hands f s = []
  \/ (exists all_hands_data,
        all_features (frame_hands f s) = Ok all_hands_data
        /\ length all_hands_data = 2%nat
        /\ scrub_roles all_hands_data = (None, None))
  \/ (exists all_hands_data,
        all_features (frame_hands f s) = Ok all_hands_data
        /\ length all_hands_data <> 2%nat
        /\ frame_hands f s <> []
        /\ cooldown_active f s
        /\ Forall (fun pos : Landmarks => pos <> []) (position_history s)) ->
  exists s1 landmarks,
    arbitration_kept s s1
    /\ loop_body f s
       = after_refresh f s
           (handle_gestures (stable_time f) (gesture_time f) None landmarks 0 s1).
Proof.
  intros Hidle.
  destruct (branch_state_fields f s) as (Hkept0 & _).
  destruct (appeared_fields f s) as (Hkept1 & _ & _ & _ & _ & _ & _ & _ & Hhistory).
  destruct (scrub_left_fields f (appeared f (branch_state f s)))
    as (_ & Hh2 & _ & _ & Hkept2).
  destruct (hands_gone_fields (branch_state f s)) as (_ & _ & _ & Hkept3).
  destruct (frame_cases f s)
    as [(Hnone & Hrun)
       | [(Hsome & e & Hfeatures & Hrun)
         | [(Hsome & all_hands_data & trigger & control & Hfeatures & Hr & Hrun)
           | [(Hsome & all_hands_data & Hfeatures & Hr & Hlength & Hrun)
             | (Hsome & all_hands_data & Hfeatures & Hr & Hlength & Hrun)]]]].
  - eexists; eexists. split; [|exact Hrun].
    exact (arbitration_kept_trans _ _ _ Hkept0 Hkept3).
  - exfalso. destruct Hidle as [H | [(d & H & _) | (d & H & _)]]; congruence.
  - exfalso.
    destruct Hidle as [H | [(d & H & _ & Hn) | (d & H & Hl & _)]];
      [congruence| |].
    + rewrite Hfeatures in H. injection H as <-. congruence.
    + rewrite Hfeatures in H. injection H as <-.
      destruct (scrub_roles_cases all_hands_data)
        as [(t0 & c0 & _ & Hlen & _) | Hnone]; congruence.
  - eexists; eexists. split; [|exact Hrun].
    exact (arbitration_kept_trans _ _ _ Hkept1 Hkept2).
  - destruct Hidle as [H | [(d & H & Hl & _) | (d & H & _ & _ & Hcool & Hwrists)]];
      [congruence| |].
    { rewrite Hfeatures in H. injection H as <-. congruence. }
    pose proof (cooling_flag f s Hcool) as Hflag.
    destruct (all_features_landmarks _ _ Hfeatures) as (Hmap & Hall).
    destruct (single_hand_shape f (in_hand_appearance_cooldown f s) all_hands_data
                (scrub_left f (appeared f (branch_state f s))))
      as (history & t & Hhist & [(e & Hsingle & Hwhy) | (data & gesture & _ & Hsingle)]).
    + exfalso. destruct Hwhy as [-> | [(data & Hhd & Hempty) | Hbad]].
      * cbn in Hmap. congruence.
      * destruct all_hands_data as [|data' others]; [discriminate|].
        injection Hhd as ->. rewrite <- Hmap in Hall. cbn [map] in Hall.
        inversion Hall; congruence.
      * apply Hbad.
        destruct Hhist as [-> | (-> & _)]; [|constructor].
        destruct all_hands_data as [|data others].
        -- rewrite Hh2, Hhistory. destruct (hand_was_visible s); [exact Hwrists|constructor].
        -- apply deque_append_forall.
           ++ rewrite Hh2, Hhistory.
              destruct (hand_was_visible s); [exact Hwrists|constructor].
           ++ rewrite <- Hmap in Hall. cbn [map] in Hall. inversion Hall; assumption.
    + rewrite Hflag in Hsingle. eexists; eexists. split; [|rewrite Hrun, Hsingle; reflexivity].
      apply (arbitration_kept_trans _ _ _ Hkept1).
      apply (arbitration_kept_trans _ _ _ Hkept2).
      unfold arbitration_kept. simpl_state. repeat split.
Qed.

(** C10.  In an iteration without hands, with two hands that are no
    scrubbing pair, or with other hands while a cooldown is active, the
    loop still calls [handle_gestures] with no gesture and a finger count
    of 0, on a state with the same arbitration fields, and sends no
    command.  So when 0 is the candidate of the stability filter and has
    been for 0.3 s, play/pause is armed after the iteration if its 1.5 s
    have passed, and the volume is armed with its direction forgotten if
    its 1.0 s have passed. *)
Theorem idle_arbitration_rearms (f : Frame) (s : State)
    (Henabled : spotify_enabled s = true)
    (Hidle : frame_hands f s = []
             \/ (exists all_hands_data,
                   all_features (frame_hands f s) = Ok all_hands_data
                   /\ length all_hands_data = 2%nat
                   /\ scrub_roles all_hands_data = (None, None))
             \/ (exists all_hands_data,
                   all_features (frame_hands f s) = Ok all_hands_data
                   /\ length all_hands_data <> 2%nat
                   /\ frame_hands f s <> []
                   /\ cooldown_active f s
                   /\ Forall (fun pos : Landmarks => pos <> [])
                        (position_history s))) :
  (exists s1 landmarks,
      arbitration_kept s s1
      /\ loop_body f s
         = after_refresh f s
             (handle_gestures (stable_time f) (gesture_time f) None landmarks 0
                s1))
  /\ commands (calls_of (loop_body f s)) = []
  /\ (stable_finger_count s = Some 0 ->
      stable_time f - finger_count_start_time s >= 300 ->
      (gesture_time f - last_play_pause_time s >= 1500 ->
       play_pause_armed (state_of (loop_body f s)) = true)
      /\ (gesture_time f - last_volume_time s >= 1000 ->
          volume_gesture_armed (state_of (loop_body f s)) = true
          /\ last_volume_gesture (state_of (loop_body f s)) = None)).
Proof.
  destruct (idle_iteration f s Hidle) as (s1 & landmarks & Hkept & Hrun).
  split; [exists s1, landmarks; auto|]. split.
  - rewrite Hrun. unfold after_refresh. cbn [calls_of snd].
    fold (calls_of (handle_gestures (stable_time f) (gesture_time f) None
                      landmarks 0 s1)).
    rewrite handle_gestures_idle_calls, app_nil_r.
    destruct (refresh_calls_cases f (counted f s)) as [-> | ->]; reflexivity.
  - intros Hstable Hheld. rewrite Hrun, state_of_after_refresh.
    unfold arbitration_kept in Hkept.
    destruct Hkept as (He & Hc & Hs & Hpa & Hpt & Hva & Hvg & Hvt & _).
    rewrite <- He in Henabled. rewrite <- Hc in Hstable. rewrite <- Hs in Hheld.
    rewrite <- Hpt, <- Hvt.
    exact (handle_gestures_idle_rearms _ _ _ s1 Henabled Hstable Hheld).
Qed.

Lemma idle_arbitration_rearms_after_toggle :
  play_pause_armed
    (run_state (scrub_then_vanish ++ one_finger_returns ++ [toggle_frame]
                ++ hand_leaves) (init true)) = false
  /\ play_pause_armed
       (state_of (loop_body idle_frame
                    (run_state (scrub_then_vanish ++ one_finger_returns
                                ++ [toggle_frame] ++ hand_leaves) (init true))))
     = true.
Proof.
  split; [vm_compute; reflexivity|].
  apply (idle_arbitration_rearms idle_frame
           (run_state (scrub_then_vanish ++ one_finger_returns
                       ++ [toggle_frame] ++ hand_leaves) (init true))).
  - vm_compute. reflexivity.
  - left. vm_compute. reflexivity.
  - vm_compute. reflexivity.
  - vm_compute. discriminate.
  - vm_compute. discriminate.
Defined.
